(** * monday-bi-agent: the chat frontend and the cleaning pipeline contract

    A shallow embedding of the React frontend of the Monday BI agent
    ([frontend/src/api/monday.js], [frontend/src/App.jsx] and the components
    [InputBar.jsx], [ActionTrace.jsx], [DataQualityReport.jsx]) together
    with a model of the backend pipeline contract it talks to.

    JavaScript values are embedded as the inductive type [JsVal]; strings
    are sequences of UTF-16 code units, as in the language; React state is
    threaded explicitly through a state-and-exception monad whose world also
    holds the log of HTTP requests and the wall clock. *)

From Stdlib Require Import ZArith NArith QArith Bool.
From stdpp Require Import base numbers option list strings gmap fin_maps pretty sorting.

#[local] Set Warnings "-register-all".
#[local] Open Scope Z_scope.

(* ===================================================================== *)
(** ** JavaScript values                                                  *)
(* ===================================================================== *)

Module Js.

(** A JavaScript string is a sequence of UTF-16 code units. *)
Abbreviation jsstring := (list N).

(** [js "..."] reads a literal of this file (UTF-8 bytes) as the code
    units the same literal denotes in the JavaScript source. *)
Definition cont (b : N) : N := N.land b 0x3F.

Fixpoint utf16_of_utf8 (bs : list N) : jsstring :=
  match bs with
  | [] => []
  | b0 :: r0 =>
    if (b0 <? 0x80)%N then b0 :: utf16_of_utf8 r0
    else if (b0 <? 0xE0)%N then
      match r0 with
      | b1 :: r1 =>
        N.lor (N.shiftl (N.land b0 0x1F) 6) (cont b1) :: utf16_of_utf8 r1
      | [] => [0xFFFD%N]
      end
    else if (b0 <? 0xF0)%N then
      match r0 with
      | b1 :: b2 :: r2 =>
        N.lor (N.shiftl (N.land b0 0x0F) 12)
              (N.lor (N.shiftl (cont b1) 6) (cont b2)) :: utf16_of_utf8 r2
      | _ => [0xFFFD%N]
      end
    else
      match r0 with
      | b1 :: b2 :: b3 :: r3 =>
        let cp := N.lor (N.shiftl (N.land b0 0x07) 18)
                    (N.lor (N.shiftl (cont b1) 12)
                       (N.lor (N.shiftl (cont b2) 6) (cont b3))) in
        let v := (cp - 0x10000)%N in
        (0xD800 + N.shiftr v 10)%N :: (0xDC00 + N.land v 0x3FF)%N
          :: utf16_of_utf8 r3
      | _ => [0xFFFD%N]
      end
  end.

Definition js (s : string) : jsstring :=
  utf16_of_utf8 (map Ascii.N_of_ascii (String.list_ascii_of_string s)).
Arguments js : simpl never.

(** Numbers: the integers (exactly representable counters and lengths)
    and NaN.  Fractions, infinities and integers beyond 2^53 are outside
    the model; no operation of the embedded code produces them from
    integer inputs within that range. *)
Inductive JsNum := Int (n : Z) | NaN.

Inductive JsVal :=
| JUndefined
| JNull
| JBool (b : bool)
| JNum (x : JsNum)
| JStr (s : jsstring)
| JArr (l : list JsVal)
| JObj (m : gmap string JsVal).

(** What a [throw] carries.  Axios rejects with an error object that has
    a [message] and, when the server answered, a [response]; a property
    read on [null] or [undefined] and a call of something that is not a
    function raise a [TypeError]. *)
Inductive JsError :=
| AxiosError (message : jsstring) (response : JsVal)
| TypeError (target : JsVal) (prop : string).

Inductive Result (A : Type) :=
| Ok (a : A)
| Throw (e : JsError).
Arguments Ok {A} a.
Arguments Throw {A} e.

#[global] Instance Result_ret : MRet Result := @Ok.
#[global] Instance Result_bind : MBind Result :=
  fun A B k r =>
    match r with
    | Ok a => k a
    | Throw e => Throw e
    end.

(** ToBoolean *)
Definition truthy (v : JsVal) : bool :=
  match v with
  | JUndefined | JNull => false
  | JBool b => b
  | JNum (Int n) => negb (n =? 0)
  | JNum NaN => false
  | JStr s => match s with [] => false | _ => true end
  | JArr _ | JObj _ => true
  end.

(** [a || b] *)
Definition js_or (a b : JsVal) : JsVal := if truthy a then a else b.

(** [v.k] for the property names this program reads ([answer],
    [action_trace], [data_quality_report], [data], [detail], [summary],
    the counters, [length]): a read on [null] or [undefined] throws, an
    object gives its own property or [undefined], an array and a string
    have a [length].  Methods live on prototypes and are not values of the
    model; indices are not read as properties here. *)
Definition get (v : JsVal) (k : string) : Result JsVal :=
  match v with
  | JUndefined | JNull => Throw (TypeError v k)
  | JObj m => Ok (default JUndefined (m !! k))
  | JArr l => Ok (if decide (k = "length") then JNum (Int (Z.of_nat (length l)))
                  else JUndefined)
  | JStr s => Ok (if decide (k = "length") then JNum (Int (Z.of_nat (length s)))
                  else JUndefined)
  | JBool _ | JNum _ => Ok JUndefined
  end.

(** [v?.k] *)
Definition get_opt (v : JsVal) (k : string) : JsVal :=
  match get v k with
  | Ok x => x
  | Throw _ => JUndefined
  end.

Fixpoint join (sep : jsstring) (parts : list jsstring) : jsstring :=
  match parts with
  | [] => []
  | [p] => p
  | p :: rest => p ++ sep ++ join sep rest
  end.

Definition number_to_string (x : JsNum) : jsstring :=
  match x with
  | Int n => js (pretty n)
  | NaN => js "NaN"
  end.

(** ToString; an array prints as [Array.prototype.join(",")] does, a
    plain object as ["[object Object]"]. *)
Fixpoint ToString (v : JsVal) : jsstring :=
  match v with
  | JUndefined => js "undefined"
  | JNull => js "null"
  | JBool true => js "true"
  | JBool false => js "false"
  | JNum x => number_to_string x
  | JStr s => s
  | JArr l =>
    join (js ",")
      (map (fun e => match e with
                     | JUndefined | JNull => []
                     | _ => ToString e
                     end) l)
  | JObj _ => js "[object Object]"
  end.

(** ToPrimitive (default hint) *)
Definition ToPrimitive (v : JsVal) : JsVal :=
  match v with
  | JArr _ | JObj _ => JStr (ToString v)
  | _ => v
  end.

(** ToNumber on the primitives that are not strings *)
Definition ToNumber (v : JsVal) : JsNum :=
  match v with
  | JNull => Int 0
  | JBool true => Int 1
  | JBool false => Int 0
  | JNum x => x
  | _ => NaN
  end.

Definition num_add (x y : JsNum) : JsNum :=
  match x, y with
  | Int a, Int b => Int (a + b)
  | _, _ => NaN
  end.

Definition is_string (v : JsVal) : bool :=
  match v with JStr _ => true | _ => false end.

(** [a + b] *)
Definition js_add (a b : JsVal) : JsVal :=
  let pa := ToPrimitive a in
  let pb := ToPrimitive b in
  if is_string pa || is_string pb
  then JStr (ToString pa ++ ToString pb)
  else JNum (num_add (ToNumber pa) (ToNumber pb)).

(** [v === n] for a number literal [n] *)
Definition strict_eq_num (v : JsVal) (n : Z) : bool :=
  match v with
  | JNum (Int k) => k =? n
  | _ => false
  end.

(** [String.prototype.startsWith] *)
Fixpoint startsWith (s p : jsstring) {struct p} : bool :=
  match p, s with
  | [], _ => true
  | c :: p', d :: s' => (c =? d)%N && startsWith s' p'
  | _ :: _, [] => false
  end.

(** White space and line terminators, as [String.prototype.trim] sees
    them. *)
Definition is_white_space (c : N) : bool :=
  ((0x09 <=? c) && (c <=? 0x0D) || (c =? 0x20) || (c =? 0xA0)
   || (c =? 0x1680) || (0x2000 <=? c) && (c <=? 0x200A)
   || (c =? 0x2028) || (c =? 0x2029) || (c =? 0x202F) || (c =? 0x205F)
   || (c =? 0x3000) || (c =? 0xFEFF))%N.

Fixpoint trimStart (s : jsstring) : jsstring :=
  match s with
  | c :: s' => if is_white_space c then trimStart s' else s
  | [] => []
  end.

Definition trimEnd (s : jsstring) : jsstring :=
  reverse (trimStart (reverse s)).

(** [String.prototype.trim] *)
Definition trim (s : jsstring) : jsstring := trimEnd (trimStart s).

(** The iteration of a string is by code point: a high surrogate
    followed by a low one is a single element. *)
Fixpoint code_points (s : jsstring) : list jsstring :=
  match s with
  | [] => []
  | c :: s' =>
    match s' with
    | d :: s'' =>
      if ((0xD800 <=? c) && (c <=? 0xDBFF) && (0xDC00 <=? d) && (d <=? 0xDFFF))%N
      then [c; d] :: code_points s''
      else [c] :: code_points s'
    | [] => [[c]]
    end
  end.

(** [[...v]]: arrays and strings are iterable, nothing else of the
    model is. *)
Definition spread (v : JsVal) : Result (list JsVal) :=
  match v with
  | JArr l => Ok l
  | JStr s => Ok (map JStr (code_points s))
  | _ => Throw (TypeError v "Symbol.iterator")
  end.

End Js.

Import Js.

(* ===================================================================== *)
(** ** The world of the running page: React state, network, clock        *)
(* ===================================================================== *)

Module Runtime.

(** An element of the [messages] state of [App]: [{role, content}] and,
    on replies, [responseTime]. *)
Record Msg := mkMsg {
  role : jsstring;
  content : JsVal;
  responseTime : option jsstring
}.

(** The [useState] cells of [App]. *)
Record AppState := mkAppState {
  messages : list Msg;
  actionTrace : JsVal;
  dataQualityReport : JsVal;
  loading : bool;
  traceOpen : bool;
  darkMode : bool
}.

(** An HTTP request as handed to axios. *)
Inductive Method := POST | GET.

Record Request := mkRequest {
  method : Method;
  url : jsstring;
  body : JsVal
}.

(** What axios resolves with. *)
Record Response := mkResponse {
  data : JsVal;
  status : Z
}.

Inductive AxiosOutcome :=
| Resolved (r : Response)
| Rejected (e : JsError).

(** One exchange with the server: how it ends and how long it takes (ms). *)
Record Exchange := mkExchange {
  outcome : AxiosOutcome;
  duration : Z
}.

Record World := mkWorld {
  ui : AppState;
  requests : list Request;
  clock : Z
}.

(** Computations that read and write the world and may throw. *)
Definition M (A : Type) : Type := World -> Result A * World.

Definition ret {A} (a : A) : M A := fun w => (Ok a, w).

Definition bind {A B} (m : M A) (k : A -> M B) : M B :=
  fun w =>
    match m w with
    | (Ok a, w') => k a w'
    | (Throw e, w') => (Throw e, w')
    end.

Definition throw {A} (e : JsError) : M A := fun w => (Throw e, w).

Definition lift {A} (r : Result A) : M A := fun w => (r, w).

(** [try { body } catch (error) { handler } finally { cleanup }] *)
Definition try_catch_finally {A} (body : M A) (handler : JsError -> M A)
    (cleanup : M unit) : M A :=
  fun w =>
    let '(r, w1) :=
      match body w with
      | (Ok a, w') => (Ok a, w')
      | (Throw e, w') => handler e w'
      end in
    match cleanup w1 with
    | (Ok _, w2) => (r, w2)
    | (Throw e, w2) => (Throw e, w2)
    end.

Definition get_ui : M AppState := fun w => (Ok (ui w), w).

Definition modify_ui (f : AppState -> AppState) : M unit :=
  fun w => (Ok tt, mkWorld (f (ui w)) (requests w) (clock w)).

(** [Date.now()] *)
Definition Date_now : M Z := fun w => (Ok (clock w), w).

#[global] Instance M_ret : MRet M := @ret.
#[global] Instance M_bind : MBind M := fun A B k m => bind m k.

Section Network.

(** The server, as seen from the page. *)
Variable backend : Request -> Exchange.

(** [await axios.post(url, body)]: the request goes out, time passes, and
    the promise resolves or rejects. *)
Definition axios_post (u : jsstring) (b : JsVal) : M Response :=
  fun w =>
    let req := mkRequest POST u b in
    let ex := backend req in
    let w' := mkWorld (ui w) (requests w ++ [req]) (clock w + duration ex) in
    match outcome ex with
    | Resolved r => (Ok r, w')
    | Rejected e => (Throw e, w')
    end.

End Network.

End Runtime.

Import Runtime.

(* ===================================================================== *)
(** ** frontend/src/api/monday.js                                         *)
(* ===================================================================== *)

Module Api.

Section Client.

(** [import.meta.env.VITE_API_BASE_URL]: a string, or [undefined]. *)
Variable VITE_API_BASE_URL : JsVal.
Variable backend : Request -> Exchange.

Definition API_BASE_URL : JsVal :=
  js_or VITE_API_BASE_URL (JStr (js "http://localhost:7860")).

Definition sendQuery (message history : JsVal) : M JsVal :=
  response ← axios_post backend (ToString API_BASE_URL ++ js "/query")
                (JObj {[ "message" := message; "history" := history ]});
  mret (data response).

(** The request [sendQuery message history] puts on the wire. *)
Definition query_request (message history : JsVal) : Request :=
  mkRequest POST (ToString API_BASE_URL ++ js "/query")
    (JObj {[ "message" := message; "history" := history ]}).

End Client.

End Api.

(* ===================================================================== *)
(** ** frontend/src/App.jsx                                               *)
(* ===================================================================== *)

Module AppJsx.

Section App.

Variable VITE_API_BASE_URL : JsVal.
Variable backend : Request -> Exchange.

(** [((t1 - t0) / 1000).toFixed(1)], from the elapsed milliseconds; the
    rounding of the binary fraction is left to the engine. *)
Variable toFixed1 : Z -> jsstring.

(** The [message] an engine gives the [TypeError] of a failed property
    read; its wording differs between engines. *)
Variable type_error_message : JsVal -> string -> jsstring.

(** [error.message] *)
Definition error_message (e : JsError) : jsstring :=
  match e with
  | AxiosError m _ => m
  | TypeError v k => type_error_message v k
  end.

(** [error.response] *)
Definition error_response (e : JsError) : JsVal :=
  match e with
  | AxiosError _ r => r
  | TypeError _ _ => JUndefined
  end.

Definition setMessages (ms : list Msg) : M unit :=
  modify_ui (fun s => mkAppState ms (actionTrace s) (dataQualityReport s)
                        (loading s) (traceOpen s) (darkMode s)).

Definition setActionTrace (t : JsVal) : M unit :=
  modify_ui (fun s => mkAppState (messages s) t (dataQualityReport s)
                        (loading s) (traceOpen s) (darkMode s)).

(** [setActionTrace((prev) => f(prev))] *)
Definition updateActionTrace (f : JsVal -> Result JsVal) : M unit :=
  s ← get_ui;
  t ← lift (f (actionTrace s));
  setActionTrace t.

Definition setDataQualityReport (r : JsVal) : M unit :=
  modify_ui (fun s => mkAppState (messages s) (actionTrace s) r
                        (loading s) (traceOpen s) (darkMode s)).

Definition setLoading (b : bool) : M unit :=
  modify_ui (fun s => mkAppState (messages s) (actionTrace s)
                        (dataQualityReport s) b (traceOpen s) (darkMode s)).

Definition setTraceOpen (b : bool) : M unit :=
  modify_ui (fun s => mkAppState (messages s) (actionTrace s)
                        (dataQualityReport s) (loading s) b (darkMode s)).

Definition fallback_answer : jsstring :=
  js "Sorry, something went wrong. Please check that the backend is running and try again.".

(** [(m) => ({ role: m.role, content: m.content })] *)
Definition turn_of (m : Msg) : JsVal :=
  JObj {[ "role" := JStr (role m); "content" := content m ]}.

(** [handleSend], closed over the [messages] of the render it was created
    in.  The [console.error] of the [catch] branch writes to the console
    only and is left out. *)
Definition handleSend (messages : list Msg) (message : jsstring) : M unit :=
  let userMessage := mkMsg (js "user") (JStr message) None in
  let updatedMessages := messages ++ [userMessage] in
  setMessages updatedMessages;;
  setLoading true;;
  setActionTrace (JArr [JStr (js "Sending query to agent...")]);;
  setTraceOpen true;;
  startTime ← Date_now;
  try_catch_finally
    (let history := map turn_of messages in
     response ← Api.sendQuery VITE_API_BASE_URL backend (JStr message) (JArr history);
     now ← Date_now;
     let elapsed := toFixed1 (now - startTime) in
     answer ← lift (get response "answer");
     let assistantMessage := mkMsg (js "assistant") answer (Some elapsed) in
     setMessages (updatedMessages ++ [assistantMessage]);;
     action_trace ← lift (get response "action_trace");
     setActionTrace (js_or action_trace (JArr []));;
     data_quality_report ← lift (get response "data_quality_report");
     setDataQualityReport (js_or data_quality_report JNull))
    (fun error =>
     now ← Date_now;
     let elapsed := toFixed1 (now - startTime) in
     let errorMessage :=
       mkMsg (js "assistant")
         (js_or (get_opt (get_opt (error_response error) "data") "detail")
             (JStr fallback_answer))
         (Some elapsed) in
     setMessages (updatedMessages ++ [errorMessage]);;
     updateActionTrace (fun prev =>
       match spread prev with
       | Ok l => Ok (JArr (l ++ [JStr (js "❌ Error: " ++ error_message error)]))
       | Throw e => Throw e
       end))
    (setLoading false).

(** A user action reaches the [handleSend] of the latest render, whose
    [messages] is the current state. *)
Definition dispatch_handleSend (message : jsstring) : M unit :=
  fun w => handleSend (messages (ui w)) message w.

(** Names for what a round produces: the request it sends, the turn it
    adds for the user, and the state its [catch] and [try] branches
    leave. *)
Definition round_request (msgs : list Msg) (message : jsstring) : Request :=
  Api.query_request VITE_API_BASE_URL (JStr message) (JArr (map turn_of msgs)).

Definition user_turn (message : jsstring) : Msg :=
  mkMsg (js "user") (JStr message) None.

Definition failed_ui (s : AppState) (msgs : list Msg) (message : jsstring)
    (elapsed : jsstring) (e : JsError) : AppState :=
  mkAppState
    (msgs ++ [user_turn message;
              mkMsg (js "assistant")
                (js_or (get_opt (get_opt (error_response e) "data") "detail")
                    (JStr fallback_answer))
                (Some elapsed)])
    (JArr [JStr (js "Sending query to agent...");
           JStr (js "❌ Error: " ++ error_message e)])
    (dataQualityReport s) false true (darkMode s).

Definition answered_ui (s : AppState) (msgs : list Msg) (message : jsstring)
    (elapsed : jsstring) (response : JsVal) : AppState :=
  mkAppState
    (msgs ++ [user_turn message;
              mkMsg (js "assistant") (get_opt response "answer") (Some elapsed)])
    (js_or (get_opt response "action_trace") (JArr []))
    (js_or (get_opt response "data_quality_report") JNull)
    false true (darkMode s).

End App.

(** The state of a freshly mounted [App]; [dark] is whether the stored
    theme is ["dark"]. *)
Definition initial_state (dark : bool) : AppState :=
  mkAppState [] (JArr []) JNull false false dark.

Definition initial_world (dark : bool) (now : Z) : World :=
  mkWorld (initial_state dark) [] now.

(** Every text the page shows from this state: the contents of the
    messages and the entries of the trace. *)
Definition text_of (v : JsVal) : option jsstring :=
  match v with
  | JStr t => Some t
  | _ => None
  end.

Definition displayed_texts (s : AppState) : list jsstring :=
  omap (fun m => text_of (content m)) (messages s)
  ++ match actionTrace s with
     | JArr l => omap text_of l
     | _ => []
     end.

(** The page exposes [detail] verbatim when some text it shows contains
    it. *)
Definition exposes (s : AppState) (detail : jsstring) : Prop :=
  exists t pre post, t ∈ displayed_texts s /\ t = pre ++ detail ++ post.

(** The reading of C2 as it is written: whenever the request fails, the
    page exposes nothing of the exception's own message. *)
Definition failure_hides_exception : Prop :=
  forall (env : JsVal) (backend : Request -> Exchange)
    (toFixed1 : Z -> jsstring) (tem : JsVal -> string -> jsstring)
    (message : jsstring) (w : World) (e : JsError),
    outcome (backend (round_request env (messages (ui w)) message))
      = Rejected e ->
    ~ exposes
        (ui (dispatch_handleSend env backend toFixed1 tem message w).2)
        (error_message tem e).

End AppJsx.

(* ===================================================================== *)
(** ** frontend/src/components/InputBar.jsx                               *)
(* ===================================================================== *)

Module InputBarJsx.

(** What a handler of the input bar did: the arguments it passed to
    [onSend], in order, and the [message] state it leaves. *)
Record Effect := mkEffect {
  sent : list jsstring;
  message_after : jsstring
}.

Definition handleSubmit (loading : bool) (message : jsstring) : Effect :=
  let trimmed := trim message in
  if negb (truthy (JStr trimmed)) || loading then mkEffect [] message
  else mkEffect [trimmed] [].

Record KeyboardEvent := mkKey {
  key : jsstring;
  shiftKey : bool
}.

(** [handleKeyDown]; the boolean tells whether [preventDefault] was
    called. *)
Definition handleKeyDown (loading : bool) (message : jsstring)
    (e : KeyboardEvent) : bool * Effect :=
  if bool_decide (key e = js "Enter") && negb (shiftKey e)
  then (true, handleSubmit loading message)
  else (false, mkEffect [] message).

(** The [disabled] attribute of the send button. *)
Definition button_disabled (loading : bool) (message : jsstring) : bool :=
  loading || negb (truthy (JStr (trim message))).

(** A click on the send button: a disabled button receives no click. *)
Definition button_click (loading : bool) (message : jsstring) : Effect :=
  if button_disabled loading message then mkEffect [] message
  else handleSubmit loading message.

End InputBarJsx.

(* ===================================================================== *)
(** ** frontend/src/components/ActionTrace.jsx                            *)
(* ===================================================================== *)

Module ActionTraceJsx.

(** One entry of the timeline: the colour of its dot, whether the line to
    the next entry is drawn, and its text. *)
Record Row := mkRow {
  dotColor : jsstring;
  connector : bool;
  text : jsstring
}.

Inductive View :=
| Placeholder
| Timeline (rows : list Row).

Definition accent : jsstring := js "var(--accent)".
Definition green : jsstring := js "#22C55E".
Definition red : jsstring := js "#EF4444".

(** The callback of [steps.map]. *)
Definition render_step (len : nat) (index : nat) (step : JsVal) : Result Row :=
  match step with
  | JStr s =>
    let isLast := (Z.of_nat index =? Z.of_nat len - 1) in
    let isSuccess := startsWith s (js "✅") in
    let isError := startsWith s (js "❌") in
    let dotColor0 := accent in
    let dotColor1 := if isSuccess then green else dotColor0 in
    let dotColor2 := if isError then red else dotColor1 in
    Ok (mkRow dotColor2 (negb isLast) s)
  | _ => Throw (TypeError step "startsWith")
  end.

(** [steps.map((step, index) => ...)], left to right from [index]. *)
Fixpoint map_steps (len index : nat) (steps : list JsVal) : Result (list Row) :=
  match steps with
  | [] => Ok []
  | step :: rest =>
    match render_step len index step with
    | Ok r =>
      match map_steps len (S index) rest with
      | Ok rs => Ok (r :: rs)
      | Throw e => Throw e
      end
    | Throw e => Throw e
    end
  end.

Definition ActionTrace (steps : JsVal) : Result View :=
  if negb (truthy steps) then Ok Placeholder
  else
    match get steps "length" with
    | Throw e => Throw e
    | Ok len =>
      if strict_eq_num len 0 then Ok Placeholder
      else
        match steps with
        | JArr l =>
          match map_steps (length l) 0 l with
          | Ok rows => Ok (Timeline rows)
          | Throw e => Throw e
          end
        | _ => Throw (TypeError steps "map")
        end
    end.

Definition rows_of (v : View) : list Row :=
  match v with
  | Placeholder => []
  | Timeline rows => rows
  end.

(** A row is tagged by the marker its text starts with. *)
Definition tagged (row : Row) : Prop :=
  (dotColor row = green <-> js "✅" `prefix_of` text row)
  /\ (dotColor row = red <-> js "❌" `prefix_of` text row)
  /\ (dotColor row = accent <->
      ~ js "✅" `prefix_of` text row /\ ~ js "❌" `prefix_of` text row).

End ActionTraceJsx.

(* ===================================================================== *)
(** ** frontend/src/components/DataQualityReport.jsx                      *)
(* ===================================================================== *)

Module DataQualityReportJsx.

(** What the card shows: the colour and text of the summary line and,
    when expanded, the labelled cells with their values (the colour of a
    cell is styling and is left out). *)
Record View := mkView {
  summaryColor : jsstring;
  summaryText : jsstring;
  details : option (list (jsstring * JsVal))
}.

(** [report.k || 0] *)
Definition counter (report : JsVal) (k : string) : Result JsVal :=
  v ← get report k;
  mret (js_or v (JNum (Int 0))).

Definition totalIssues (report : JsVal) : Result JsVal :=
  missing_values ← counter report "missing_values";
  unparseable_dates ← counter report "unparseable_dates";
  unparseable_numbers ← counter report "unparseable_numbers";
  mret (js_add (js_add missing_values unparseable_dates) unparseable_numbers).

(** The text of the summary line. *)
Definition summary_line (report total : JsVal) : Result jsstring :=
  if strict_eq_num total 0 then mret (js "No issues found")
  else
    total_items ← counter report "total_items";
    mret (ToString total ++ js " issues · " ++ ToString total_items ++ js " items").

(** The cells of the expanded card, in order. *)
Definition detail_cells (report : JsVal) : Result (list (jsstring * JsVal)) :=
  total_items ← counter report "total_items";
  missing_values ← counter report "missing_values";
  unparseable_dates ← counter report "unparseable_dates";
  unparseable_numbers ← counter report "unparseable_numbers";
  mret [ (js "Items", total_items);
         (js "Missing", missing_values);
         (js "Bad Dates", unparseable_dates);
         (js "Bad Numbers", unparseable_numbers) ].

(** The component; [None] is the [null] it returns to render nothing. *)
Definition DataQualityReport (report : JsVal) (expanded : bool)
    : Result (option View) :=
  if negb (truthy report) then mret None
  else
    summary ← get report "summary";
    if negb (truthy summary) then mret None
    else
      total ← totalIssues report;
      line ← summary_line report total;
      cells ← (if expanded then c ← detail_cells report; mret (Some c)
               else mret None);
      mret (Some (mkView
                    (if strict_eq_num total 0 then js "#22C55E" else js "#F59E0B")
                    line cells)).

(** Counter [k] of report [m] reads as [n]: it holds the number [n], or it
    is absent and [n] is 0. *)
Definition reads_as (m : gmap string JsVal) (k : string) (n : Z) : Prop :=
  m !! k = Some (JNum (Int n)) \/ (m !! k = None /\ n = 0).

End DataQualityReportJsx.

(* ===================================================================== *)
(** ** The backend pipeline, from its specification                      *)
(* ===================================================================== *)

(** The backend ([backend/agent.py], [backend/data_cleaner.py]) is not
    among the sources; the definitions of this module follow what the
    specification says of it. *)

Module Backend.

(** Modelled from the spec: text of the backend (a Python [str], absent
    from the sources) as its sequence of code points. *)
Abbreviation text := (list N).

(** Modelled from the spec: a literal of the absent backend; for
    characters of the Basic Multilingual Plane the code points are the
    UTF-16 code units. *)
Definition py (s : string) : text := js s.
Arguments py : simpl never.

(** Modelled from the spec: the semantic types of §3 (CleanedItem), whose
    declaration in the absent [data_cleaner.py] is missing. *)
Inductive FieldType := TDate | TNumber | TCategory | TText.

(** Modelled from the spec: the per-field provenance flags of §3, missing
    with [data_cleaner.py]. *)
Inductive Provenance := original | normalized | missing | unparseable.

(** Modelled from the spec: a canonical value of §3 (CleanedItem); an
    unparseable or missing field keeps the original text ([VRaw]).  The
    floating value of a number is held as the exact decimal it denotes;
    rounding to binary floating point is not modelled.  The type in
    [data_cleaner.py] is missing. *)
Inductive Canonical :=
| VDate (iso : text)
| VNumber (q : Q)
| VCategory (label : text)
| VText (t : text)
| VRaw (raw : text).

(** Modelled from the spec: one field of a CleanedItem (§3), missing with
    [data_cleaner.py]. *)
Record CleanedField := mkField {
  kind : FieldType;
  value : Canonical;
  provenance : Provenance
}.

(** Modelled from the spec: the counters of the QualityReport (§3),
    missing with [data_cleaner.py]. *)
Record Counters := mkCounters {
  total_items : nat;
  missing_values : nat;
  unparseable_dates : nat;
  unparseable_numbers : nat;
  normalization_events : nat
}.

(** Modelled from the spec: the QualityReport of §3, the counters and the
    [summary] flag; missing with [data_cleaner.py]. *)
Record QualityReport := mkReport {
  counters : Counters;
  summary : bool
}.

(** Modelled from the spec: the empty QualityReport of §4.1, returned
    when nothing was cleaned; missing with [agent.py]. *)
Definition no_counts : Counters := mkCounters 0 0 0 0 0.

(** Modelled from the spec: see [no_counts]. *)
Definition empty_report : QualityReport := mkReport no_counts false.

(** Modelled from the spec: the sum of two sets of counters ("a strict
    sum of per-field outcomes", §4.2); missing with [data_cleaner.py]. *)
Definition counters_add (a b : Counters) : Counters :=
  mkCounters
    (total_items a + total_items b)
    (missing_values a + missing_values b)
    (unparseable_dates a + unparseable_dates b)
    (unparseable_numbers a + unparseable_numbers b)
    (normalization_events a + normalization_events b).

(** Modelled from the spec: the sum of a sequence of counters, in the
    order given; missing with [data_cleaner.py]. *)
Definition counters_sum (cs : list Counters) : Counters :=
  foldr counters_add no_counts cs.

(** Modelled from the spec: what one cleaned field adds to the report
    (§4.2): a missing value, an unparseable date or number, or a
    normalization event; missing with [data_cleaner.py]. *)
Definition tally (f : CleanedField) : Counters :=
  match provenance f, kind f with
  | original, _ => no_counts
  | normalized, _ => mkCounters 0 0 0 0 1
  | missing, _ => mkCounters 0 1 0 0 0
  | unparseable, TDate => mkCounters 0 0 1 0 0
  | unparseable, TNumber => mkCounters 0 0 0 1 0
  | unparseable, _ => no_counts
  end.

(** *** Number cleaning (§4.2, Numbers/currency) *)

Definition is_digit (c : N) : bool := ((48 <=? c) && (c <=? 57))%N.

(** Modelled from the spec: ASCII lower-casing, for the case-insensitive
    suffixes of §4.2; missing with [data_cleaner.py]. *)
Definition lower (c : N) : N :=
  if ((65 <=? c) && (c <=? 90))%N then (c + 32)%N else c.

(** Modelled from the spec: the digits of a decimal numeral and their
    value; missing with [data_cleaner.py]. *)
Fixpoint digits_value (acc : Z) (s : text) : option Z :=
  match s with
  | [] => Some acc
  | c :: s' =>
    if is_digit c then digits_value (10 * acc + Z.of_N (c - 48)) s'
    else None
  end.

(** Modelled from the spec: the text up to the first ["."], and the text
    after it; missing with [data_cleaner.py]. *)
Fixpoint split_point (s : text) : text * text :=
  match s with
  | [] => ([], [])
  | c :: s' =>
    if (c =? 46)%N then ([], s')
    else let '(i, f) := split_point s' in (c :: i, f)
  end.

(** Modelled from the spec: the value of an unsigned numeral, digits with
    an optional fraction and at least one digit, negated on demand;
    missing with [data_cleaner.py]. *)
Definition parse_unsigned (negative : bool) (body : text) : option Q :=
  let '(ip, fp) := split_point body in
  match ip, fp with
  | [], [] => None
  | _, _ =>
    match digits_value 0 ip, digits_value 0 fp with
    | Some i, Some f =>
      let scale := 10 ^ Z.of_nat (length fp) in
      let num := i * scale + f in
      Some (Qred (Qmake (if negative then - num else num) (Z.to_pos scale)))
    | _, _ => None
    end
  end.

(** Modelled from the spec: "convert to a floating value" (§4.2): an
    optional sign and an unsigned numeral; missing with
    [data_cleaner.py]. *)
Definition parse_decimal (s : text) : option Q :=
  match s with
  | c :: r =>
    if (c =? 45)%N then parse_unsigned true r
    else if (c =? 43)%N then parse_unsigned false r
    else parse_unsigned false s
  | [] => None
  end.

(** Modelled from the spec: the trailing magnitude suffixes of §4.2, K for
    a thousand, M for a million, Cr for ten million, in either case; the
    result is the text before the suffix and the multiplier.  Missing with
    [data_cleaner.py]. *)
Definition split_suffix (s : text) : text * Z :=
  match reverse s with
  | r :: rest =>
    match rest with
    | c :: rest' =>
      if ((lower c =? 99) && (lower r =? 114))%N then (reverse rest', 10000000)
      else if (lower r =? 107)%N then (reverse rest, 1000)
      else if (lower r =? 109)%N then (reverse rest, 1000000)
      else (s, 1)
    | [] =>
      if (lower r =? 107)%N then ([], 1000)
      else if (lower r =? 109)%N then ([], 1000000)
      else (s, 1)
    end
  | [] => (s, 1)
  end.

(** Modelled from the spec: the characters a numeral with a suffix is
    written with (§4.2): digits, the point, the signs and the letters;
    missing with [data_cleaner.py]. *)
Definition numeral_char (c : N) : bool :=
  (is_digit c || (c =? 46) || (c =? 43) || (c =? 45)
   || (97 <=? lower c) && (lower c <=? 122))%N.

Section Cleaner.

(** The currency symbols the cleaner strips; the specification names
    none but the rupee sign of its example. *)
Variable currency_symbols : list N.

(** Modelled from the spec: "strip currency symbols and thousands
    separators" (§4.2); missing with [data_cleaner.py]. *)
Definition strip (s : text) : text :=
  filter (fun c => ~ (c ∈ currency_symbols \/ c = 44%N)) s.

(** Modelled from the spec: the number a raw text denotes (§4.2), if
    any; missing with [data_cleaner.py]. *)
Definition parse_number (raw : text) : option Q :=
  let '(numeral, multiplier) := split_suffix (strip raw) in
  q ← parse_decimal numeral;
  Some (Qred (q * inject_Z multiplier)).

(** Modelled from the spec: number cleaning (§4.2): the value on
    success, and on failure the original text marked unparseable.  A text
    that already is a plain numeral keeps the flag [original].  Missing
    with [data_cleaner.py]. *)
Definition clean_number (raw : text) : CleanedField :=
  match parse_number raw with
  | Some q =>
    mkField TNumber (VNumber q)
      (match parse_decimal raw with Some _ => original | None => normalized end)
  | None => mkField TNumber (VRaw raw) unparseable
  end.

(** The date cascade, the text normaliser and the status table of §4.2
    are not specified in enough detail to be written out; they are taken
    as given, each returning the canonical value and its flag. *)
Variable clean_date : text -> Canonical * Provenance.
Variable clean_text : text -> Canonical * Provenance.
Variable clean_status : text -> Canonical * Provenance.

(** How the [summary] flag follows from the counters is not specified. *)
Variable summarise : Counters -> bool.

(** Modelled from the spec: the coercion of one raw value into its
    semantic type (§3, §4.2); missing with [data_cleaner.py]. *)
Definition clean_value (ty : FieldType) (raw : text) : CleanedField :=
  match ty with
  | TNumber => clean_number raw
  | TDate => let '(v, p) := clean_date raw in mkField TDate v p
  | TCategory => let '(v, p) := clean_status raw in mkField TCategory v p
  | TText => let '(v, p) := clean_text raw in mkField TText v p
  end.

(** Modelled from the spec: a CleanedItem (§3) is the RawItem with every
    field coerced; a field the schema does not list is cleaned as text.
    Missing with [data_cleaner.py]. *)
Definition clean_item (schema : gmap string FieldType)
    (item : gmap string text) : gmap string CleanedField :=
  map_imap
    (fun name raw => Some (clean_value (default TText (schema !! name)) raw))
    item.

(** Modelled from the spec: the report of one item: the item itself and
    the outcome of each of its fields (§4.2); missing with
    [data_cleaner.py]. *)
Definition item_counters (item : gmap string CleanedField) : Counters :=
  counters_add (mkCounters 1 0 0 0 0)
    (counters_sum (tally <$> (map_to_list item).*2)).

(** Modelled from the spec: a QualityReport (§3) from its counters;
    missing with [data_cleaner.py]. *)
Definition report_of (cs : Counters) : QualityReport :=
  mkReport cs (summarise cs).

(** Modelled from the spec: [clean(items, schema)] of §4.2, a pure
    function returning the cleaned items and the report, the sum of the
    reports of the items; missing with [data_cleaner.py]. *)
Definition clean (schema : gmap string FieldType)
    (items : list (gmap string text))
    : list (gmap string CleanedField) * QualityReport :=
  let cleaned := clean_item schema <$> items in
  (cleaned, report_of (counters_sum (item_counters <$> cleaned))).

(** Modelled from the spec: the counters of the report of one call of
    [clean] (§4.2); missing with [data_cleaner.py]. *)
Definition cleaned_counters (schema : gmap string FieldType)
    (items : list (gmap string text)) : Counters :=
  counters (clean schema items).2.

(** Modelled from the spec: the sum of the reports of several calls of
    [clean] (§4.2, "across all items and boards"); missing with
    [agent.py]. *)
Definition merge_reports (rs : list QualityReport) : QualityReport :=
  report_of (counters_sum (counters <$> rs)).

End Cleaner.

(** *** The orchestrator (§4.5) *)

(** Modelled from the spec: the states of the per-request state machine
    of §4.5; missing with [agent.py]. *)
Inductive Stage :=
| PLANNING | CLARIFYING | FETCHING | CLEANING | AGGREGATING | COMPOSING
| DONE | FAILED.

(** Modelled from the spec: the leading marker of a trace entry (§3):
    entry to a state, success, or failure; missing with [agent.py]. *)
Inductive Marker := Entered | Succeeded | Failure.

(** Modelled from the spec: an ActionTraceEntry (§3): the stage it
    belongs to, its marker and, for a failed fetch, the board; missing
    with [agent.py]. *)
Record TraceEntry := mkEntry {
  stage : Stage;
  marker : Marker;
  board : option N
}.

(** Modelled from the spec: the filter operators of §4.3; missing with
    [agent.py]. *)
Inductive Operator :=
| op_equals | op_contains | op_greater_than | op_less_than | op_in_range
| op_in_set.

(** Modelled from the spec: a filter of a QueryPlan (§3); missing with
    [agent.py]. *)
Record Filter := mkFilter {
  field : string;
  operator : Operator;
  operand : text
}.

(** Modelled from the spec: the aggregations of §4.3; missing with
    [agent.py]. *)
Inductive Aggregation :=
| agg_sum | agg_average | agg_count | agg_count_distinct | agg_min | agg_max
| agg_breakdown_by (category_field : string).

(** Modelled from the spec: a metric of a QueryPlan (§3); missing with
    [agent.py]. *)
Record MetricSpec := mkMetricSpec {
  name : text;
  aggregation : Aggregation;
  target_field : string
}.

(** Modelled from the spec: the QueryPlan of §3, its boards in plan
    order; missing with [agent.py]. *)
Record QueryPlan := mkPlan {
  boards : list N;
  filters : list Filter;
  metrics : list MetricSpec;
  analysis_type : text;
  needs_clarification : bool;
  clarification_question : option text
}.

(** Modelled from the spec: a ConversationTurn of §3, the role and the
    content; missing with [agent.py]. *)
Inductive Role := user | assistant.

(** Modelled from the spec: the ResponseEnvelope of §3; missing with
    [agent.py]. *)
Record ResponseEnvelope := mkEnvelope {
  answer : text;
  action_trace : list TraceEntry;
  data_quality_report : QualityReport
}.

Section Orchestrator.

(** The parameters of the cleaner. *)
Variable currency_symbols : list N.
Variable clean_date : text -> Canonical * Provenance.
Variable clean_text : text -> Canonical * Provenance.
Variable clean_status : text -> Canonical * Provenance.
Variable summarise : Counters -> bool.

(** The collaborators of the orchestrator (§2, §6), as functions. *)

(** The MetricResults of §3, as the metric engine produces them. *)
Variable Metrics : Type.

(** The schema provider: the field types of a board. *)
Variable schema_of : N -> gmap string FieldType.

(** The language model asked for a plan: the parsed answer to the first
    prompt (attempt 0) and to the corrective one (attempt 1), [None] on a
    parse failure. *)
Variable ask_plan : text -> list (Role * text) -> nat -> option QueryPlan.

(** The question put to the user when no plan could be parsed. *)
Variable rephrase_question : text.

(** The data source client: the items of a board, [None] once its
    retries are spent. *)
Variable fetch : N -> option (list (gmap string text)).

(** The metric engine. *)
Variable compute : list (gmap string CleanedField) -> QueryPlan -> Metrics.

(** The language model asked for the briefing, [None] once its retry is
    spent, and the templated summary used then. *)
Variable compose_llm : Metrics -> QualityReport -> text -> option text.
Variable template_summary : Metrics -> text.

(** The answer of a request that failed. *)
Variable failure_answer : text.

(** Modelled from the spec: the Query Planner of §4.1: one retry after a
    parse failure, then a plan that asks the user to rephrase; missing
    with [agent.py]. *)
Definition plan_query (utterance : text) (history : list (Role * text))
    : QueryPlan :=
  match ask_plan utterance history 0 with
  | Some p => p
  | None =>
    match ask_plan utterance history 1 with
    | Some p => p
    | None => mkPlan [] [] [] [] true (Some rephrase_question)
    end
  end.

(** Modelled from the spec: the fetches of the boards of a plan, in plan
    order (§5); missing with [agent.py]. *)
Definition fetch_all (bs : list N) : list (N * option (list (gmap string text))) :=
  (fun b => (b, fetch b)) <$> bs.

(** Modelled from the spec: the trace entries that note the boards whose
    fetch failed (§4.5); missing with [agent.py]. *)
Definition failed_fetch_notes
    (fetched : list (N * option (list (gmap string text)))) : list TraceEntry :=
  omap (fun bf => match bf.2 with
                  | None => Some (mkEntry FETCHING Failure (Some bf.1))
                  | Some _ => None
                  end) fetched.

(** Modelled from the spec: the boards that were fetched, with their
    items (§4.5); missing with [agent.py]. *)
Definition fetched_boards
    (fetched : list (N * option (list (gmap string text))))
    : list (N * list (gmap string text)) :=
  omap (fun bf => match bf.2 with
                  | None => None
                  | Some items => Some (bf.1, items)
                  end) fetched.

(** Modelled from the spec: the Response Composer of §4.4 with the
    fallback of §7; missing with [agent.py]. *)
Definition compose (m : Metrics) (quality : QualityReport) (utterance : text)
    : text :=
  default (template_summary m) (compose_llm m quality utterance).

(** Modelled from the spec: the Pipeline Orchestrator of §4.5: one trace
    entry on entry to each state and one on terminal exit; a plan that
    needs clarification ends in CLARIFYING with the question as the answer
    and the empty report; a board whose fetch fails is noted and the
    others go on; no board fetched ends in FAILED.  Missing with
    [agent.py]. *)
Definition orchestrate (utterance : text) (history : list (Role * text))
    : ResponseEnvelope :=
  let plan := plan_query utterance history in
  let t_plan := [mkEntry PLANNING Entered None] in
  if needs_clarification plan then
    mkEnvelope
      (default rephrase_question (clarification_question plan))
      (t_plan ++ [mkEntry CLARIFYING Entered None;
                  mkEntry CLARIFYING Succeeded None])
      empty_report
  else
    let fetched := fetch_all (boards plan) in
    let t_fetch :=
      t_plan ++ [mkEntry FETCHING Entered None] ++ failed_fetch_notes fetched in
    match fetched_boards fetched with
    | [] =>
      mkEnvelope failure_answer
        (t_fetch ++ [mkEntry FAILED Entered None; mkEntry FAILED Failure None])
        empty_report
    | got =>
      let cleaned :=
        (fun bi => clean currency_symbols clean_date clean_text clean_status
                     summarise (schema_of bi.1) bi.2) <$> got in
      let quality := merge_reports summarise (snd <$> cleaned) in
      let m := compute (concat (fst <$> cleaned)) plan in
      let briefing := compose m quality utterance in
      mkEnvelope briefing
        (t_fetch ++ [mkEntry CLEANING Entered None;
                     mkEntry AGGREGATING Entered None;
                     mkEntry COMPOSING Entered None;
                     mkEntry DONE Entered None;
                     mkEntry DONE Succeeded None])
        quality
    end.

End Orchestrator.

End Backend.

(* ===================================================================== *)
(** ** frontend/src/App.jsx: the round around its [await]                 *)
(* ===================================================================== *)

Module AppAsync.

Section Async.

Variable VITE_API_BASE_URL : JsVal.
Variable backend : Request -> Exchange.
Variable toFixed1 : Z -> jsstring.
Variable type_error_message : JsVal -> string -> jsstring.

(** [axios.post] up to the moment the request has left the page. *)
Definition axios_send (u : jsstring) (b : JsVal) : M Request :=
  fun w =>
    let req := mkRequest POST u b in
    (Ok req, mkWorld (ui w) (requests w ++ [req]) (clock w)).

(** The rest of [axios.post]: time passes and the promise settles. *)
Definition axios_settle (req : Request) : M Response :=
  fun w =>
    let ex := backend req in
    let w' := mkWorld (ui w) (requests w) (clock w + duration ex) in
    match outcome ex with
    | Resolved r => (Ok r, w')
    | Rejected e => (Throw e, w')
    end.

(** [handleSend] up to its [await]: what has run, and what the page shows,
    while the request is in flight.  It yields the start time and the
    request. *)
Definition handleSend_until_await (messages : list Msg) (message : jsstring)
    : M (Z * Request) :=
  let userMessage := mkMsg (js "user") (JStr message) None in
  let updatedMessages := messages ++ [userMessage] in
  AppJsx.setMessages updatedMessages;;
  AppJsx.setLoading true;;
  AppJsx.setActionTrace (JArr [JStr (js "Sending query to agent...")]);;
  AppJsx.setTraceOpen true;;
  startTime ← Date_now;
  let history := map AppJsx.turn_of messages in
  req ← axios_send (ToString (Api.API_BASE_URL VITE_API_BASE_URL) ++ js "/query")
          (JObj {[ "message" := JStr message; "history" := JArr history ]});
  mret (startTime, req).

(** [handleSend] from the moment the promise of [axios.post] settles. *)
Definition handleSend_after_await (messages : list Msg) (message : jsstring)
    (startTime : Z) (req : Request) : M unit :=
  let userMessage := mkMsg (js "user") (JStr message) None in
  let updatedMessages := messages ++ [userMessage] in
  try_catch_finally
    (settled ← axios_settle req;
     let response := data settled in
     now ← Date_now;
     let elapsed := toFixed1 (now - startTime) in
     answer ← lift (get response "answer");
     let assistantMessage := mkMsg (js "assistant") answer (Some elapsed) in
     AppJsx.setMessages (updatedMessages ++ [assistantMessage]);;
     action_trace ← lift (get response "action_trace");
     AppJsx.setActionTrace (js_or action_trace (JArr []));;
     data_quality_report ← lift (get response "data_quality_report");
     AppJsx.setDataQualityReport (js_or data_quality_report JNull))
    (fun error =>
     now ← Date_now;
     let elapsed := toFixed1 (now - startTime) in
     let errorMessage :=
       mkMsg (js "assistant")
         (js_or (get_opt (get_opt (AppJsx.error_response error) "data") "detail")
                (JStr AppJsx.fallback_answer))
         (Some elapsed) in
     AppJsx.setMessages (updatedMessages ++ [errorMessage]);;
     AppJsx.updateActionTrace (fun prev =>
       match spread prev with
       | Ok l => Ok (JArr (l ++ [JStr (js "❌ Error: "
                                       ++ AppJsx.error_message type_error_message error)]))
       | Throw e => Throw e
       end))
    (AppJsx.setLoading false).

(** The user sends one text after the other, each once the round before
    it is over. *)
Fixpoint rounds (texts : list jsstring) : M unit :=
  match texts with
  | [] => mret tt
  | t :: rest =>
    AppJsx.dispatch_handleSend VITE_API_BASE_URL backend toFixed1
      type_error_message t;;
    rounds rest
  end.

End Async.

End AppAsync.

(* ===================================================================== *)
(** ** frontend/src/App.jsx: the theme                                    *)
(* ===================================================================== *)

Module AppThemeJsx.

(** What the theme code touches of the browser: [localStorage] and the
    [data-theme] attribute of the document element. *)
Record Browser := mkBrowser {
  localStorage : gmap string jsstring;
  data_theme : option jsstring
}.

(** [useState(() => localStorage.getItem("theme") === "dark")] *)
Definition initial_darkMode (b : Browser) : bool :=
  bool_decide (localStorage b !! "theme" = Some (js "dark")).

(** [darkMode ? "dark" : "light"] *)
Definition theme_name (darkMode : bool) : jsstring :=
  if darkMode then js "dark" else js "light".

(** The effect that runs after a render with a new [darkMode]. *)
Definition theme_effect (darkMode : bool) (b : Browser) : Browser :=
  mkBrowser (<["theme" := theme_name darkMode]> (localStorage b))
            (Some (theme_name darkMode)).

(** Mounting [App]: the initial state, then the effect. *)
Definition mount (b : Browser) : bool * Browser :=
  let darkMode := initial_darkMode b in
  (darkMode, theme_effect darkMode b).

(** The theme button: [setDarkMode(!darkMode)], then the effect of the
    render that follows. *)
Definition toggle (darkMode : bool) (b : Browser) : bool * Browser :=
  (negb darkMode, theme_effect (negb darkMode) b).

End AppThemeJsx.

(* ===================================================================== *)
(** ** frontend/src/components/ChatWindow.jsx                             *)
(* ===================================================================== *)

Module ChatWindowJsx.

Definition QUERY_SETS : list (list jsstring) :=
  [ [ js "How is our pipeline looking?";
      js "Total value of open work orders?";
      js "Which deals are at risk?";
      js "Mining vs Construction?" ];
    [ js "What's our pipeline health this quarter?";
      js "Show me overdue work orders";
      js "Top sectors by deal value?";
      js "How many deals are in proposal stage?" ];
    [ js "Give me a revenue summary";
      js "Which work orders are stalling?";
      js "Break down deals by closure probability";
      js "What's our average deal size?" ] ].

(** [(prev) => (prev + 1) % QUERY_SETS.length]; [%] is the remainder of
    the truncated division. *)
Definition next_index (prev : Z) : Z :=
  Z.rem (prev + 1) (Z.of_nat (length QUERY_SETS)).

(** A tick of the 8 second interval; the interval only runs while there
    is no message. *)
Definition on_interval (messages : list Msg) (querySetIndex : Z) : Z :=
  match messages with
  | [] => next_index querySetIndex
  | _ :: _ => querySetIndex
  end.

(** [QUERY_SETS[querySetIndex]]; [None] is [undefined]. *)
Definition currentQueries (querySetIndex : Z) : option (list jsstring) :=
  if querySetIndex <? 0 then None
  else QUERY_SETS !! Z.to_nat querySetIndex.

(** What is drawn for one message. *)
Inductive Bubble :=
| UserBubble (content : JsVal)
| AssistantBlock (markdown : JsVal) (badge : option jsstring).

Inductive View :=
| EmptyState (suggestions : list jsstring)
| Conversation (bubbles : list Bubble) (analyzing : bool).

(** [msg.responseTime && <span>{msg.responseTime}s</span>] *)
Definition response_badge (msg : Msg) : option jsstring :=
  match responseTime msg with
  | Some t => if truthy (JStr t) then Some (t ++ js "s") else None
  | None => None
  end.

(** The callback of [messages.map]. *)
Definition render_message (msg : Msg) : Bubble :=
  if bool_decide (role msg = js "user") then UserBubble (content msg)
  else AssistantBlock (content msg) (response_badge msg).

(** The component, for the [messages] array of [App]. *)
Definition ChatWindow (messages : list Msg) (loading : bool)
    (querySetIndex : Z) : Result View :=
  match messages with
  | [] =>
    match currentQueries querySetIndex with
    | Some queries => Ok (EmptyState queries)
    | None => Throw (TypeError JUndefined "map")
    end
  | _ :: _ => Ok (Conversation (render_message <$> messages) loading)
  end.

End ChatWindowJsx.

(* ===================================================================== *)
(** ** frontend/src/App.jsx: the components wired to [handleSend]         *)
(* ===================================================================== *)

Module AppWiring.

Section Wiring.

Variable VITE_API_BASE_URL : JsVal.
Variable backend : Request -> Exchange.
Variable toFixed1 : Z -> jsstring.
Variable type_error_message : JsVal -> string -> jsstring.

(** [<InputBar onSend={handleSend} loading={loading} />]: what a handler
    of the input bar passed to [onSend] goes to [handleSend]; the result is
    the text the field holds afterwards. *)
Definition run_effect (eff : InputBarJsx.Effect) : M jsstring :=
  AppAsync.rounds VITE_API_BASE_URL backend toFixed1 type_error_message
    (InputBarJsx.sent eff);;
  mret (InputBarJsx.message_after eff).

(** A key pressed in the input bar while it holds [typed]. *)
Definition InputBar_keyDown (typed : jsstring) (e : InputBarJsx.KeyboardEvent)
    : M jsstring :=
  fun w =>
    run_effect (InputBarJsx.handleKeyDown (loading (ui w)) typed e).2 w.

(** A click on the send button while the input bar holds [typed]. *)
Definition InputBar_click (typed : jsstring) : M jsstring :=
  fun w => run_effect (InputBarJsx.button_click (loading (ui w)) typed) w.

(** [<ChatWindow ... onSuggestionClick={handleSend} />]: a click on the
    [i]-th suggestion; the buttons exist in the empty state only. *)
Definition suggestion_click (querySetIndex : Z) (i : nat) : M unit :=
  fun w =>
    match ChatWindowJsx.ChatWindow (messages (ui w)) (loading (ui w))
            querySetIndex with
    | Ok (ChatWindowJsx.EmptyState queries) =>
      match queries !! i with
      | Some q =>
        AppJsx.dispatch_handleSend VITE_API_BASE_URL backend toFixed1
          type_error_message q w
      | None => (Ok tt, w)
      end
    | _ => (Ok tt, w)
    end.

End Wiring.

End AppWiring.

(* ===================================================================== *)
(** ** Concrete inputs for the examples                                   *)
(* ===================================================================== *)

(** A concrete round that succeeds, for the examples below. *)
Definition sample_envelope : gmap string JsVal :=
  {[ "answer" := JStr (js "Pipeline value is 4.2 Cr across 12 deals.");
     "action_trace" := JArr [JStr (js "✅ Query understood");
                             JStr (js "Fetching Deals board")];
     "data_quality_report" :=
       JObj {[ "summary" := JBool true; "missing_values" := JNum (Int 2) ]} ]}.

Definition sample_backend (_ : Request) : Exchange :=
  mkExchange (Resolved (mkResponse (JObj sample_envelope) 200)) 1500.

Definition failing_backend (_ : Request) : Exchange :=
  mkExchange
    (Rejected (AxiosError (js "Request failed with status code 500")
                 (JObj {[ "data" := JObj {[ "detail" := JStr (js "Rate limit reached") ]} ]})))
    230.

(** Three raw items and a schema, for the examples. *)
Definition deals_schema : gmap string Backend.FieldType :=
  {[ "Deal Value" := Backend.TNumber; "Deal Name" := Backend.TText ]}.

Definition item_A : gmap string Backend.text :=
  {[ "Deal Value" := Backend.py "₹1.2Cr"; "Deal Name" := Backend.py "Alpha" ]}.
Definition item_B : gmap string Backend.text :=
  {[ "Deal Value" := Backend.py "n/a"; "Deal Name" := Backend.py "" ]}.
Definition item_C : gmap string Backend.text :=
  {[ "Deal Value" := Backend.py "3500" ]}.

(** A text cleaner for the examples: the empty text is missing, any other
    is kept. *)
Definition sample_clean_text (t : Backend.text)
    : Backend.Canonical * Backend.Provenance :=
  match t with
  | [] => (Backend.VRaw t, Backend.missing)
  | _ => (Backend.VText t, Backend.original)
  end.

Definition sample_counters (items : list (gmap string Backend.text))
    : Backend.Counters :=
  Backend.cleaned_counters [0x20B9%N] sample_clean_text sample_clean_text
    sample_clean_text (fun _ => true) deals_schema items.

(** A planner whose two attempts both fail to parse, for the example. *)
Definition unparsed_plan (_ : Backend.text)
    (_ : list (Backend.Role * Backend.text)) (_ : nat)
    : option Backend.QueryPlan := None.

(** A backend that answers with the body [null], and two reports for the
    quality card. *)
Definition null_backend (_ : Request) : Exchange :=
  mkExchange (Resolved (mkResponse JNull 200)) 90.

Definition text_counter_report : gmap string JsVal :=
  {[ "summary" := JBool true; "missing_values" := JStr (js "2") ]}.

Definition shown_report : JsVal :=
  JObj {[ "summary" := JBool true; "missing_values" := JNum (Int 2);
          "total_items" := JNum (Int 40) ]}.

(* ===================================================================== *)
(** * Properties                                                          *)
(* ===================================================================== *)

Example js_ascii : js "user" = [117; 115; 101; 114]%N.
Proof. reflexivity. Qed.
Example js_check_mark : js "✅" = [0x2705]%N.
Proof. reflexivity. Qed.
Example js_cross_mark : js "❌" = [0x274C]%N.
Proof. reflexivity. Qed.
Example js_rupee : js "₹" = [0x20B9]%N.
Proof. reflexivity. Qed.
Example js_middle_dot : js "·" = [0xB7]%N.
Proof. reflexivity. Qed.
Example js_astral : js "😀" = [0xD83D; 0xDE00]%N.
Proof. reflexivity. Qed.
Example trim_ex : trim (js "  hi there 	") = js "hi there".
Proof. reflexivity. Qed.
Example js_add_ex : js_add (JNum (Int 2)) (js_or JUndefined (JNum (Int 0))) = JNum (Int 2).
Proof. reflexivity. Qed.
Example js_add_str_ex : js_add (JStr (js "3")) (JNum (Int 0)) = JStr (js "30").
Proof. reflexivity. Qed.

(* ===================================================================== *)
(** ** Facts about the values                                             *)
(* ===================================================================== *)

Section JsFacts.

Lemma startsWith_prefix (s p : jsstring) :
  startsWith s p = true <-> p `prefix_of` s.
Proof.
  revert s. induction p as [|c p IH]; intros s; simpl.
  - split; [intros _; apply prefix_nil | done].
  - destruct s as [|d s].
    + split; [done | intros H; by apply prefix_nil_not in H].
    + rewrite andb_true_iff, N.eqb_eq, IH. split.
      * intros [-> H]. by apply prefix_cons.
      * intros H. split; [by apply prefix_cons_inv_1 in H | by apply prefix_cons_inv_2 in H].
Qed.

Lemma get_truthy (v : JsVal) (k : string) :
  truthy v = true -> get v k = Ok (get_opt v k).
Proof. unfold get_opt. destruct v; simpl; try done. Qed.

Lemma get_opt_obj (m : gmap string JsVal) (k : string) :
  get_opt (JObj m) k = default JUndefined (m !! k).
Proof. done. Qed.

End JsFacts.

(* ===================================================================== *)
(** ** The wire contract of [sendQuery]                                   *)
(* ===================================================================== *)

Section ApiFacts.

Variable VITE_API_BASE_URL : JsVal.
Variable backend : Request -> Exchange.

Lemma sendQuery_run (message history : JsVal) (w : World) :
  Api.sendQuery VITE_API_BASE_URL backend message history w =
  let req := Api.query_request VITE_API_BASE_URL message history in
  let w' := mkWorld (ui w) (requests w ++ [req])
              (clock w + duration (backend req)) in
  match outcome (backend req) with
  | Resolved r => (Ok (data r), w')
  | Rejected e => (Throw e, w')
  end.
Proof.
  unfold Api.sendQuery, mbind, M_bind, bind, axios_post, Api.query_request. simpl.
  by destruct (outcome _).
Qed.

(** C1.  Every call [sendQuery(message, history)] issues exactly one
    request: a POST to [`${API_BASE_URL}/query`] whose body is an object
    with the two properties [message] and [history], holding the arguments,
    and no other.  React state is not touched.  The promise settles as
    axios does: when axios resolves with [response], the call resolves with
    [response.data] itself, so every field of the envelope reads as the
    backend sent it; when axios rejects, the call rejects with the same
    error. *)
Theorem sendQuery_wire_contract (message history : JsVal) (w : World) :
  let run := Api.sendQuery VITE_API_BASE_URL backend message history w in
  exists (req : Request) (b : gmap string JsVal),
    requests run.2 = requests w ++ [req]
    /\ method req = POST
    /\ url req = ToString (Api.API_BASE_URL VITE_API_BASE_URL) ++ js "/query"
    /\ body req = JObj b
    /\ b !! "message" = Some message
    /\ b !! "history" = Some history
    /\ dom b = {[ "message"; "history" ]}
    /\ ui run.2 = ui w
    /\ match outcome (backend req) with
       | Resolved response =>
           run.1 = Ok (data response)
       | Rejected e => run.1 = Throw e
       end.
Proof.
  intros run.
  exists (Api.query_request VITE_API_BASE_URL message history),
         {[ "message" := message; "history" := history ]}.
  subst run. rewrite sendQuery_run. cbv zeta.
  destruct (outcome (backend (Api.query_request VITE_API_BASE_URL message history))) eqn:Hout;
    simpl; repeat split; try done; set_solver.
Qed.

End ApiFacts.

Example query_url_default :
  url (Api.query_request JUndefined (JStr (js "hi")) (JArr []))
  = js "http://localhost:7860/query".
Proof. reflexivity. Qed.

Example query_url_configured :
  url (Api.query_request (JStr (js "https://bi.example.com")) (JStr (js "hi")) (JArr []))
  = js "https://bi.example.com/query".
Proof. reflexivity. Qed.

(* ===================================================================== *)
(** ** One round of [handleSend]                                          *)
(* ===================================================================== *)

Section AppFacts.

#[local] Opaque js.

Variable VITE_API_BASE_URL : JsVal.
Variable backend : Request -> Exchange.
Variable toFixed1 : Z -> jsstring.
Variable type_error_message : JsVal -> string -> jsstring.

#[local] Abbreviation handleSend :=
  (AppJsx.handleSend VITE_API_BASE_URL backend toFixed1 type_error_message).
#[local] Abbreviation dispatch_handleSend :=
  (AppJsx.dispatch_handleSend VITE_API_BASE_URL backend toFixed1 type_error_message).
#[local] Abbreviation error_message := (AppJsx.error_message type_error_message).

#[local] Abbreviation round_request := (AppJsx.round_request VITE_API_BASE_URL).
#[local] Abbreviation failed_ui := (AppJsx.failed_ui type_error_message).
#[local] Abbreviation answered_ui := AppJsx.answered_ui.
#[local] Abbreviation user_turn := AppJsx.user_turn.

Lemma handleSend_run (msgs : list Msg) (message : jsstring) (w : World) :
  handleSend msgs message w =
  let req := round_request msgs message in
  let ex := backend req in
  let elapsed := toFixed1 (duration ex) in
  (Ok tt,
   mkWorld
     match outcome ex with
     | Resolved r =>
       match get (data r) "answer" with
       | Ok _ => answered_ui (ui w) msgs message elapsed (data r)
       | Throw e => failed_ui (ui w) msgs message elapsed e
       end
     | Rejected e => failed_ui (ui w) msgs message elapsed e
     end
     (requests w ++ [req])
     (clock w + duration ex)).
Proof.
  unfold AppJsx.handleSend, mbind, M_bind, bind, try_catch_finally.
  simpl. rewrite sendQuery_run. cbv zeta.
  fold (AppJsx.round_request VITE_API_BASE_URL msgs message).
  destruct (outcome (backend (round_request msgs message))) as [r|e] eqn:Hout;
    simpl.
  - unfold lift. destruct (data r) as [| | | | |l|m] eqn:Hd; simpl;
      unfold AppJsx.answered_ui, AppJsx.failed_ui, AppJsx.user_turn, get_opt; simpl;
      rewrite <- ?app_assoc, ?Z.add_simpl_l; reflexivity.
  - unfold AppJsx.failed_ui, AppJsx.user_turn.
    rewrite <- app_assoc, ?Z.add_simpl_l. reflexivity.
Qed.

End AppFacts.

Lemma dispatch_handleSend_run (env : JsVal) (backend : Request -> Exchange)
    (toFixed1 : Z -> jsstring) (tem : JsVal -> string -> jsstring)
    (message : jsstring) (w : World) :
  AppJsx.dispatch_handleSend env backend toFixed1 tem message w =
  let msgs := messages (ui w) in
  let ex := backend (AppJsx.round_request env msgs message) in
  let elapsed := toFixed1 (duration ex) in
  (Ok tt,
   mkWorld
     match outcome ex with
     | Resolved r =>
       match get (data r) "answer" with
       | Ok _ => AppJsx.answered_ui (ui w) msgs message elapsed (data r)
       | Throw e => AppJsx.failed_ui tem (ui w) msgs message elapsed e
       end
     | Rejected e => AppJsx.failed_ui tem (ui w) msgs message elapsed e
     end
     (requests w ++ [AppJsx.round_request env msgs message])
     (clock w + duration ex)).
Proof. unfold AppJsx.dispatch_handleSend. apply handleSend_run. Qed.

Lemma turn_of_lookup (msgs : list Msg) (i : nat) (msg : Msg) :
  msgs !! i = Some msg ->
  map AppJsx.turn_of msgs !! i
  = Some (JObj {[ "role" := JStr (role msg); "content" := content msg ]}).
Proof. intros H. by rewrite list_lookup_fmap, H. Qed.

(** C4.  When the query resolves with an object, the state the page shows
    afterwards is built from three of its properties and nothing else of
    it: the reply appended to the messages has [response.answer] as its
    content, the trace is [response.action_trace] (the empty list when the
    property is absent), the quality report is
    [response.data_quality_report] ([null] when absent), and [loading] is
    off again.  Two responses that agree on these three properties, taking
    equally long, leave the same state. *)
Theorem handleSend_success_state (env : JsVal) (backend : Request -> Exchange)
    (toFixed1 : Z -> jsstring) (tem : JsVal -> string -> jsstring)
    (message : jsstring) (w : World) (r : Response) (m : gmap string JsVal) :
  let req := AppJsx.round_request env (messages (ui w)) message in
  outcome (backend req) = Resolved r ->
  data r = JObj m ->
  let w' := (AppJsx.dispatch_handleSend env backend toFixed1 tem message w).2 in
  messages (ui w')
    = messages (ui w)
      ++ [mkMsg (js "user") (JStr message) None;
          mkMsg (js "assistant") (default JUndefined (m !! "answer"))
            (Some (toFixed1 (duration (backend req))))]
  /\ actionTrace (ui w') = js_or (default JUndefined (m !! "action_trace")) (JArr [])
  /\ (m !! "action_trace" = None -> actionTrace (ui w') = JArr [])
  /\ dataQualityReport (ui w')
     = js_or (default JUndefined (m !! "data_quality_report")) JNull
  /\ (m !! "data_quality_report" = None -> dataQualityReport (ui w') = JNull)
  /\ loading (ui w') = false
  /\ traceOpen (ui w') = true
  /\ darkMode (ui w') = darkMode (ui w)
  /\ forall (backend' : Request -> Exchange) (r' : Response)
       (m' : gmap string JsVal),
       outcome (backend' req) = Resolved r' ->
       data r' = JObj m' ->
       duration (backend' req) = duration (backend req) ->
       m' !! "answer" = m !! "answer" ->
       m' !! "action_trace" = m !! "action_trace" ->
       m' !! "data_quality_report" = m !! "data_quality_report" ->
       ui (AppJsx.dispatch_handleSend env backend' toFixed1 tem message w).2
       = ui w'.
Proof.
  intros req Hout Hdata w'. subst w'.
  rewrite dispatch_handleSend_run. cbv zeta. fold req.
  rewrite Hout, Hdata. simpl.
  split_and!; try done.
  - intros Hnone. by rewrite get_opt_obj, Hnone.
  - intros Hnone. by rewrite get_opt_obj, Hnone.
  - intros backend' r' m' Hout' Hdata' Hdur Ha Ht Hq.
    rewrite dispatch_handleSend_run. cbv zeta. fold req.
    rewrite Hout', Hdata', Hdur. simpl.
    unfold AppJsx.answered_ui. rewrite !get_opt_obj, Ha, Ht, Hq. done.
Qed.

(** C5.  A round of [handleSend] never rejects and only appends to the
    conversation: the messages afterwards are the prior ones, untouched and
    in order, followed by exactly one user turn carrying the message and
    exactly one assistant turn, whichever way the request ends.  It sends
    exactly one request; its [message] is the message and its [history] has
    one entry per prior turn, in order, each an object with just the
    [role] and the [content] of that turn, so the message being sent is not
    in it. *)
Theorem handleSend_turns_append_only (env : JsVal)
    (backend : Request -> Exchange) (toFixed1 : Z -> jsstring)
    (tem : JsVal -> string -> jsstring) (message : jsstring) (w : World) :
  let prior := messages (ui w) in
  let run := AppJsx.dispatch_handleSend env backend toFixed1 tem message w in
  run.1 = Ok tt
  /\ (exists reply : Msg,
        messages (ui run.2)
          = prior ++ [mkMsg (js "user") (JStr message) None; reply]
        /\ role reply = js "assistant")
  /\ exists (req : Request) (b : gmap string JsVal) (turns : list JsVal),
       requests run.2 = requests w ++ [req]
       /\ body req = JObj b
       /\ b !! "message" = Some (JStr message)
       /\ b !! "history" = Some (JArr turns)
       /\ length turns = length prior
       /\ forall (i : nat) (msg : Msg), prior !! i = Some msg ->
            exists t : gmap string JsVal,
              turns !! i = Some (JObj t)
              /\ t !! "role" = Some (JStr (role msg))
              /\ t !! "content" = Some (content msg)
              /\ dom t = {[ "role"; "content" ]}.
Proof.
  intros prior run. subst run. rewrite dispatch_handleSend_run. cbv zeta.
  fold prior. simpl. split; [done|]. split.
  - destruct (outcome _) as [r|e].
    + destruct (get (data r) "answer"); eexists; split; reflexivity.
    + eexists; split; reflexivity.
  - eexists _, _, (map AppJsx.turn_of prior). split_and!; try done.
    + by rewrite length_map.
    + intros i msg Hi. eexists. split; [by apply turn_of_lookup|].
      split_and!; try done; set_solver.
Qed.



Lemma handleSend_success_state_witness :
  messages
    (ui (AppJsx.dispatch_handleSend JUndefined sample_backend
           (fun _ => js "1.5") (fun _ _ => []) (js "How is our pipeline looking?")
           (AppJsx.initial_world false 0)).2)
  = [mkMsg (js "user") (JStr (js "How is our pipeline looking?")) None;
     mkMsg (js "assistant")
       (JStr (js "Pipeline value is 4.2 Cr across 12 deals.")) (Some (js "1.5"))].
Proof.
  exact (proj1 (handleSend_success_state JUndefined sample_backend
                  (fun _ => js "1.5") (fun _ _ => [])
                  (js "How is our pipeline looking?")
                  (AppJsx.initial_world false 0)
                  (mkResponse (JObj sample_envelope) 200) sample_envelope
                  eq_refl eq_refl)).
Defined.


Example failing_round_state :
  ui (AppJsx.dispatch_handleSend JUndefined failing_backend
        (fun _ => js "0.2") (fun _ _ => []) (js "Which deals are at risk?")
        (AppJsx.initial_world false 0)).2
  = mkAppState
      [mkMsg (js "user") (JStr (js "Which deals are at risk?")) None;
       mkMsg (js "assistant") (JStr (js "Rate limit reached")) (Some (js "0.2"))]
      (JArr [JStr (js "Sending query to agent...");
             JStr (js "❌ Error: Request failed with status code 500")])
      JNull false true false.
Proof. vm_compute. reflexivity. Qed.

(** A response body that is [null] makes [response.answer] throw inside
    the [try]; the round ends in the [catch] branch like a failed
    request. *)
Example null_body_round :
  messages
    (ui (AppJsx.dispatch_handleSend JUndefined
           (fun _ => mkExchange (Resolved (mkResponse JNull 200)) 10)
           (fun _ => js "0.0") (fun _ _ => js "null has no properties")
           (js "hi") (AppJsx.initial_world false 0)).2)
  = [mkMsg (js "user") (JStr (js "hi")) None;
     mkMsg (js "assistant") (JStr AppJsx.fallback_answer) (Some (js "0.0"))].
Proof. vm_compute. reflexivity. Qed.

(* ===================================================================== *)
(** ** The trace timeline                                                 *)
(* ===================================================================== *)

Section ActionTraceFacts.

Import ActionTraceJsx.

Lemma markers_exclusive (s : jsstring) :
  js "✅" `prefix_of` s -> js "❌" `prefix_of` s -> False.
Proof.
  rewrite js_check_mark, js_cross_mark. intros [k1 ->] [k2 H]. discriminate H.
Qed.

Lemma colours_distinct : green <> red /\ green <> accent /\ red <> accent.
Proof. split_and!; intros H; vm_compute in H; discriminate H. Qed.

Lemma render_step_tagged (len index : nat) (s : jsstring) :
  exists row, render_step len index (JStr s) = Ok row
              /\ text row = s /\ tagged row.
Proof.
  unfold render_step. eexists. split; [reflexivity|]. split; [reflexivity|].
  unfold tagged. cbn [dotColor text].
  pose proof (startsWith_prefix s (js "✅")) as Hs.
  pose proof (startsWith_prefix s (js "❌")) as He.
  pose proof (markers_exclusive s) as Hx.
  destruct colours_distinct as (Hgr & Hga & Hra).
  destruct (startsWith s (js "✅")) eqn:E1, (startsWith s (js "❌")) eqn:E2.
  - exfalso. apply Hx; [by apply Hs | by apply He].
  - assert (P1 : js "✅" `prefix_of` s) by (by apply Hs).
    assert (N2 : ~ js "❌" `prefix_of` s) by (intros H; by apply Hx).
    clear Hs He Hx. intuition congruence.
  - assert (P2 : js "❌" `prefix_of` s) by (by apply He).
    assert (N1 : ~ js "✅" `prefix_of` s) by (intros H; by apply Hx).
    clear Hs He Hx. intuition congruence.
  - assert (N1 : ~ js "✅" `prefix_of` s) by (intros H; apply Hs in H; discriminate H).
    assert (N2 : ~ js "❌" `prefix_of` s) by (intros H; apply He in H; discriminate H).
    clear Hs He Hx. intuition congruence.
Qed.

Lemma map_steps_strings (len : nat) (ss : list jsstring) (index : nat) :
  exists rows, map_steps len index (JStr <$> ss) = Ok rows
               /\ text <$> rows = ss /\ Forall tagged rows.
Proof.
  revert index. induction ss as [|s ss IH]; intros index.
  - exists []. by split_and!.
  - destruct (render_step_tagged len index s) as (row & Hrow & Htext & Htag).
    destruct (IH (S index)) as (rows & Hrows & Htexts & Htags).
    exists (row :: rows). cbn [fmap list_fmap map_steps].
    change (list_fmap _ _ JStr ss) with (JStr <$> ss).
    rewrite Hrow, Hrows. split_and!; [done | simpl; by f_equal | by constructor].
Qed.

(** C3.  For a list of entries, the timeline has one row per entry, in the
    order given and with the entry's text; a row's dot is green exactly when
    its text starts with the check mark, red exactly when it starts with
    the cross, and the accent colour exactly when it starts with neither.
    An empty list shows the placeholder, with no row. *)
Theorem ActionTrace_tags_by_marker (ss : list jsstring) :
  exists v : View,
    ActionTrace (JArr (JStr <$> ss)) = Ok v
    /\ text <$> rows_of v = ss
    /\ Forall tagged (rows_of v)
    /\ (ss = [] <-> v = Placeholder).
Proof.
  destruct ss as [|s ss].
  - exists Placeholder. by split_and!.
  - destruct (map_steps_strings (length (JStr <$> (s :: ss))) (s :: ss) 0)
      as (rows & Hrows & Htexts & Htags).
    exists (Timeline rows). unfold ActionTrace.
    change (truthy (JArr _)) with true. cbn [negb get].
    rewrite decide_True by done.
    change (strict_eq_num _ 0) with
      (Z.of_nat (length (JStr <$> (s :: ss))) =? 0).
    destruct (Z.eqb_spec (Z.of_nat (length (JStr <$> (s :: ss)))) 0) as [H0|_];
      [simpl in H0; lia|].
    rewrite Hrows. split_and!; try done.
Qed.

End ActionTraceFacts.

Example trace_ex :
  ActionTraceJsx.ActionTrace
    (JArr [JStr (js "Sending query to agent...");
           JStr (js "✅ Fetched 12 items");
           JStr (js "❌ Error: Network Error")])
  = Ok (ActionTraceJsx.Timeline
          [ActionTraceJsx.mkRow (js "var(--accent)") true (js "Sending query to agent...");
           ActionTraceJsx.mkRow (js "#22C55E") true (js "✅ Fetched 12 items");
           ActionTraceJsx.mkRow (js "#EF4444") false (js "❌ Error: Network Error")]).
Proof. vm_compute. reflexivity. Qed.

(** Outside its contract: a trace that is not an array of strings makes
    the component throw. *)
Example trace_of_number_entry :
  ActionTraceJsx.ActionTrace (JArr [JNum (Int 3)])
  = Throw (TypeError (JNum (Int 3)) "startsWith").
Proof. reflexivity. Qed.

Example trace_of_string :
  ActionTraceJsx.ActionTrace (JStr (js "done"))
  = Throw (TypeError (JStr (js "done")) "map").
Proof. reflexivity. Qed.

(* ===================================================================== *)
(** ** The input bar                                                      *)
(* ===================================================================== *)

Section InputBarFacts.

Import InputBarJsx.

Lemma trimStart_white (s : jsstring) :
  Forall (fun c => is_white_space c = true) s -> trimStart s = [].
Proof. induction 1 as [|c s Hc _ IH]; simpl; [done | by rewrite Hc]. Qed.

Lemma trimStart_split (s : jsstring) :
  exists pre, s = pre ++ trimStart s
              /\ Forall (fun c => is_white_space c = true) pre
              /\ (forall c, head (trimStart s) = Some c -> is_white_space c = false).
Proof.
  induction s as [|c s (pre & Hs & Hpre & Hhd)]; simpl.
  - exists []. split_and!; [done | constructor | done].
  - destruct (is_white_space c) eqn:Hc.
    + exists (c :: pre). split_and!; [simpl; by f_equal | by constructor | done].
    + exists []. split_and!; [done | constructor |]. simpl. by intros ? [= <-].
Qed.

Lemma trim_white (s : jsstring) :
  Forall (fun c => is_white_space c = true) s -> trim s = [].
Proof. intros H. unfold trim, trimEnd. by rewrite (trimStart_white s H). Qed.

(** What [trim] returns is the input without a run of white space at
    each end; it neither starts nor ends with white space. *)
Lemma trim_split (s : jsstring) :
  exists pre post,
    s = pre ++ trim s ++ post
    /\ Forall (fun c => is_white_space c = true) pre
    /\ Forall (fun c => is_white_space c = true) post
    /\ (forall c, head (trim s) = Some c -> is_white_space c = false)
    /\ (forall c, last (trim s) = Some c -> is_white_space c = false).
Proof.
  destruct (trimStart_split s) as (pre & Hs & Hpre & Hhd).
  destruct (trimStart_split (reverse (trimStart s))) as (tsop & Hr & Hpost & Hlast).
  exists pre, (reverse tsop). unfold trim, trimEnd.
  assert (Hmid : trimStart s
                 = reverse (trimStart (reverse (trimStart s))) ++ reverse tsop).
  { rewrite <- reverse_app, <- Hr. by rewrite reverse_involutive. }
  split_and!.
  - by rewrite <- Hmid.
  - done.
  - by apply Forall_reverse.
  - intros c Hc. apply Hhd. rewrite Hmid.
    destruct (reverse (trimStart (reverse (trimStart s)))) as [|d t] eqn:E; [done|].
    exact Hc.
  - intros c Hc. apply Hlast. by rewrite <- last_reverse.
Qed.

Lemma handleSubmit_cases (loading : bool) (message : jsstring) :
  handleSubmit loading message =
  match trim message, loading with
  | _ :: _, false => mkEffect [trim message] []
  | _, _ => mkEffect [] message
  end.
Proof.
  unfold handleSubmit. simpl. destruct (trim message), loading; reflexivity.
Qed.

Lemma button_click_submit (loading : bool) (message : jsstring) :
  button_click loading message = handleSubmit loading message.
Proof.
  unfold button_click, button_disabled. rewrite handleSubmit_cases. simpl.
  destruct (trim message), loading; reflexivity.
Qed.

(** C9.  Whatever the text and whether or not a request is in flight, a
    key press or a click on the send button calls [onSend] at most once,
    and only with no request in flight, a text that is not empty after
    trimming, and (for a key) the Enter key without Shift; the argument is
    then the trimmed text, and the field is cleared.  Enter without Shift
    and the button do the same thing: with a text that is not blank and no
    request in flight they send; with a text of white space only, or a
    request in flight, they send nothing and leave the field as it is. *)
Theorem InputBar_submit_guard (loading : bool) (message : jsstring) :
  (forall (e : KeyboardEvent) (arg : jsstring),
     arg ∈ sent (handleKeyDown loading message e).2 ->
     sent (handleKeyDown loading message e).2 = [arg]
     /\ arg = trim message /\ arg <> [] /\ loading = false
     /\ message_after (handleKeyDown loading message e).2 = []
     /\ key e = js "Enter" /\ shiftKey e = false)
  /\ (forall arg : jsstring,
        arg ∈ sent (button_click loading message) ->
        sent (button_click loading message) = [arg]
        /\ arg = trim message /\ arg <> [] /\ loading = false
        /\ message_after (button_click loading message) = [])
  /\ (handleKeyDown loading message (mkKey (js "Enter") false)).2
     = button_click loading message
  /\ (trim message <> [] -> loading = false ->
      button_click loading message = mkEffect [trim message] [])
  /\ (trim message = [] \/ loading = true ->
      button_click loading message = mkEffect [] message)
  /\ (Forall (fun c => is_white_space c = true) message ->
      sent (button_click loading message) = []).
Proof.
  assert (Hsub : forall arg, arg ∈ sent (handleSubmit loading message) ->
            sent (handleSubmit loading message) = [arg]
            /\ arg = trim message /\ arg <> [] /\ loading = false
            /\ message_after (handleSubmit loading message) = []).
  { intros arg. rewrite handleSubmit_cases.
    destruct (trim message) as [|c t] eqn:Ht, loading; simpl;
      try (intros H; by apply not_elem_of_nil in H).
    intros H. apply list_elem_of_singleton in H. subst arg. by split_and!. }
  split_and!.
  - intros e arg. unfold handleKeyDown.
    destruct (bool_decide (key e = js "Enter")) eqn:Hk, (shiftKey e) eqn:Hsh;
      simpl; try (intros H; by apply not_elem_of_nil in H).
    intros H. destruct (Hsub arg H) as (? & ? & ? & ? & ?).
    apply bool_decide_eq_true in Hk. by split_and!.
  - intros arg. rewrite button_click_submit. apply Hsub.
  - by rewrite button_click_submit.
  - intros Hne ->. rewrite button_click_submit, handleSubmit_cases.
    by destruct (trim message).
  - intros H. rewrite button_click_submit, handleSubmit_cases.
    destruct H as [-> | ->]; [done | by destruct (trim message)].
  - intros Hws. rewrite button_click_submit, handleSubmit_cases.
    by rewrite (trim_white message Hws).
Qed.

End InputBarFacts.

Lemma InputBar_submit_guard_witness :
  InputBarJsx.button_click false (js "  How is our pipeline looking? ")
  = InputBarJsx.mkEffect [js "How is our pipeline looking?"] [].
Proof.
  apply (proj1 (proj2 (proj2 (proj2
           (InputBar_submit_guard false (js "  How is our pipeline looking? ")))))).
  - vm_compute. discriminate.
  - reflexivity.
Defined.

Example blank_input_not_sent :
  InputBarJsx.handleKeyDown false (js "   ") (InputBarJsx.mkKey (js "Enter") false)
  = (true, InputBarJsx.mkEffect [] (js "   ")).
Proof. reflexivity. Qed.

Example shift_enter_not_sent :
  InputBarJsx.handleKeyDown false (js "hello") (InputBarJsx.mkKey (js "Enter") true)
  = (false, InputBarJsx.mkEffect [] (js "hello")).
Proof. reflexivity. Qed.

Example busy_not_sent :
  InputBarJsx.handleKeyDown true (js "hello") (InputBarJsx.mkKey (js "Enter") false)
  = (true, InputBarJsx.mkEffect [] (js "hello")).
Proof. reflexivity. Qed.

(* ===================================================================== *)
(** ** The data quality card                                              *)
(* ===================================================================== *)

Section DataQualityReportFacts.

Import DataQualityReportJsx.

Lemma Result_bind_Ok {A B : Type} (a : A) (k : A -> Result B) :
  (Ok a ≫= k) = k a.
Proof. reflexivity. Qed.

Lemma counter_truthy (report : JsVal) (k : string) :
  truthy report = true ->
  counter report k = Ok (js_or (get_opt report k) (JNum (Int 0))).
Proof. intros H. unfold counter. by rewrite (get_truthy _ _ H). Qed.

Lemma counter_reads_as (m : gmap string JsVal) (k : string) (n : Z) :
  reads_as m k n -> counter (JObj m) k = Ok (JNum (Int n)).
Proof.
  intros [H | [H ->]]; unfold counter; simpl; rewrite H; simpl; [|done].
  unfold js_or. simpl. by destruct (Z.eqb_spec n 0) as [->|].
Qed.

Lemma DataQualityReport_never_throws (report : JsVal) (expanded : bool) :
  exists v, DataQualityReport report expanded = Ok v.
Proof.
  unfold DataQualityReport.
  destruct (truthy report) eqn:Ht; simpl; [|by eexists].
  rewrite (get_truthy _ _ Ht). simpl.
  destruct (truthy (get_opt report "summary")); simpl; [|by eexists].
  unfold totalIssues, summary_line, detail_cells.
  rewrite !(counter_truthy _ _ Ht). simpl.
  destruct (strict_eq_num _ 0), expanded; simpl; by eexists.
Qed.


End DataQualityReportFacts.

Example quality_card_ex :
  DataQualityReportJsx.DataQualityReport
    (JObj {[ "summary" := JStr (js "3 issues in 40 items");
             "total_items" := JNum (Int 40);
             "missing_values" := JNum (Int 2);
             "unparseable_numbers" := JNum (Int 1);
             "normalization_events" := JNum (Int 17) ]}) true
  = Ok (Some (DataQualityReportJsx.mkView
          (js "#F59E0B") (js "3 issues · 40 items")
          (Some [ (js "Items", JNum (Int 40)); (js "Missing", JNum (Int 2));
                  (js "Bad Dates", JNum (Int 0));
                  (js "Bad Numbers", JNum (Int 1)) ]))).
Proof. vm_compute. reflexivity. Qed.

(* ===================================================================== *)
(** ** The cleaning contract                                              *)
(* ===================================================================== *)

Section CleanerFacts.

Import Backend.

Lemma counters_add_comm (a b : Counters) : counters_add a b = counters_add b a.
Proof. unfold counters_add. f_equal; lia. Qed.

Lemma counters_add_assoc (a b c : Counters) :
  counters_add a (counters_add b c) = counters_add (counters_add a b) c.
Proof. unfold counters_add. simpl. f_equal; lia. Qed.

Lemma counters_add_zero_l (a : Counters) : counters_add no_counts a = a.
Proof. by destruct a. Qed.

Lemma counters_sum_app (xs ys : list Counters) :
  counters_sum (xs ++ ys) = counters_add (counters_sum xs) (counters_sum ys).
Proof.
  induction xs as [|x xs IH]; simpl.
  - by rewrite counters_add_zero_l.
  - by rewrite IH, counters_add_assoc.
Qed.

Lemma counters_sum_perm (xs ys : list Counters) :
  xs ≡ₚ ys -> counters_sum xs = counters_sum ys.
Proof.
  induction 1 as [|x xs ys _ IH|x y xs|xs ys zs _ IH1 _ IH2]; simpl.
  - done.
  - by rewrite IH.
  - rewrite !counters_add_assoc. f_equal. apply counters_add_comm.
  - by rewrite IH1.
Qed.

Variable currency_symbols : list N.
Variable clean_date : text -> Canonical * Provenance.
Variable clean_text : text -> Canonical * Provenance.
Variable clean_status : text -> Canonical * Provenance.
Variable summarise : Counters -> bool.

#[local] Abbreviation clean :=
  (Backend.clean currency_symbols clean_date clean_text clean_status summarise).
#[local] Abbreviation cleaned_counters :=
  (Backend.cleaned_counters currency_symbols clean_date clean_text clean_status
     summarise).
#[local] Abbreviation clean_item :=
  (Backend.clean_item currency_symbols clean_date clean_text clean_status).

Lemma cleaned_counters_eq (schema : gmap string FieldType)
    (items : list (gmap string text)) :
  cleaned_counters schema items
  = counters_sum ((fun i => item_counters (clean_item schema i)) <$> items).
Proof.
  unfold Backend.cleaned_counters, Backend.clean, report_of. simpl.
  by rewrite <- list_fmap_compose.
Qed.

Lemma cleaned_counters_app (schema : gmap string FieldType)
    (xs ys : list (gmap string text)) :
  cleaned_counters schema (xs ++ ys)
  = counters_add (cleaned_counters schema xs) (cleaned_counters schema ys).
Proof. by rewrite !cleaned_counters_eq, fmap_app, counters_sum_app. Qed.

Lemma cleaned_counters_concat (schema : gmap string FieldType)
    (parts : list (list (gmap string text))) :
  cleaned_counters schema (concat parts)
  = counters_sum (cleaned_counters schema <$> parts).
Proof.
  induction parts as [|p parts IH]; simpl.
  - by rewrite cleaned_counters_eq.
  - by rewrite cleaned_counters_app, IH.
Qed.

End CleanerFacts.

(** C8.  The counters of a QualityReport are a sum over the items: if a
    sequence of items is cut into parts, each part is cleaned on its own,
    and the counters of the reports are added in any order, the totals are
    those of cleaning the whole sequence at once; and cleaning the items in
    another order gives the same totals. *)
Theorem quality_report_sum_order_independent
    (currency_symbols : list N)
    (clean_date clean_text clean_status :
       Backend.text -> Backend.Canonical * Backend.Provenance)
    (summarise : Backend.Counters -> bool)
    (schema : gmap string Backend.FieldType)
    (parts summed : list (list (gmap string Backend.text))) :
  summed ≡ₚ parts ->
  Backend.counters_sum
    (Backend.cleaned_counters currency_symbols clean_date clean_text clean_status
       summarise schema <$> summed)
  = Backend.cleaned_counters currency_symbols clean_date clean_text clean_status
      summarise schema (concat parts)
  /\ forall reordered : list (gmap string Backend.text),
       reordered ≡ₚ concat parts ->
       Backend.cleaned_counters currency_symbols clean_date clean_text clean_status
         summarise schema reordered
       = Backend.cleaned_counters currency_symbols clean_date clean_text clean_status
           summarise schema (concat parts).
Proof.
  intros Hperm. split.
  - rewrite cleaned_counters_concat. apply counters_sum_perm.
    by apply fmap_Permutation.
  - intros reordered Hre. rewrite !cleaned_counters_eq.
    apply counters_sum_perm. by apply fmap_Permutation.
Qed.

Example counters_ABC :
  sample_counters [item_A; item_B; item_C] = Backend.mkCounters 3 1 0 1 1.
Proof. vm_compute. reflexivity. Qed.

Lemma quality_report_sum_order_independent_witness :
  Backend.counters_sum [sample_counters [item_C]; sample_counters [item_A; item_B]]
  = sample_counters [item_A; item_B; item_C].
Proof.
  exact (proj1 (quality_report_sum_order_independent [0x20B9%N]
                  sample_clean_text sample_clean_text sample_clean_text
                  (fun _ => true) deals_schema
                  [[item_A; item_B]; [item_C]] [[item_C]; [item_A; item_B]]
                  (perm_swap _ _ _))).
Defined.

(* ===================================================================== *)
(** ** Number cleaning                                                    *)
(* ===================================================================== *)

Section NumberFacts.

Import Backend.

Variable currency_symbols : list N.

Lemma strip_currency (c : N) (s : text) :
  c ∈ currency_symbols ->
  strip currency_symbols (c :: s) = strip currency_symbols s.
Proof.
  intros H. unfold strip. rewrite filter_cons_False; [done|]. tauto.
Qed.

Lemma strip_separator (s : text) :
  strip currency_symbols (44%N :: s) = strip currency_symbols s.
Proof. unfold strip. rewrite filter_cons_False; [done|]. tauto. Qed.

Lemma strip_numeral_char (c : N) (s : text) :
  (forall x, x ∈ currency_symbols -> numeral_char x = false) ->
  numeral_char c = true ->
  strip currency_symbols (c :: s) = c :: strip currency_symbols s.
Proof.
  intros Hcur Hc. unfold strip. rewrite filter_cons_True; [done|].
  intros [H | ->]; [|discriminate Hc].
  apply Hcur in H. congruence.
Qed.

Lemma strip_nil : strip currency_symbols [] = [].
Proof. done. Qed.

Lemma strip_no_digit (s : text) :
  Forall (fun c => is_digit c = false) s ->
  Forall (fun c => is_digit c = false) (strip currency_symbols s).
Proof.
  intros H. unfold strip. rewrite Forall_forall in *.
  intros c Hc. apply list_elem_of_filter in Hc as [_ Hc]. by apply H.
Qed.

Lemma digits_value_no_digit (acc : Z) (c : N) (s : text) :
  is_digit c = false -> digits_value acc (c :: s) = None.
Proof. intros H. simpl. by rewrite H. Qed.

Lemma split_point_no_digit (s : text) :
  Forall (fun c => is_digit c = false) s ->
  Forall (fun c => is_digit c = false) (split_point s).1
  /\ Forall (fun c => is_digit c = false) (split_point s).2.
Proof.
  induction 1 as [|c s Hc Hs [IH1 IH2]]; simpl; [by split|].
  destruct (c =? 46)%N; [by split|].
  destruct (split_point s) as [i f]. simpl in *. split; [by constructor | done].
Qed.

Lemma parse_unsigned_no_digit (negative : bool) (body : text) :
  Forall (fun c => is_digit c = false) body ->
  parse_unsigned negative body = None.
Proof.
  intros Hb. unfold parse_unsigned.
  destruct (split_point_no_digit body Hb) as [H1 H2].
  destruct (split_point body) as [ip fp]. simpl in H1, H2.
  destruct ip as [|c ip].
  - destruct fp as [|d fp]; [done|].
    apply Forall_cons in H2 as [Hd _].
    change (digits_value 0 []) with (Some 0).
    by rewrite (digits_value_no_digit 0 d fp Hd).
  - apply Forall_cons in H1 as [Hc _].
    by rewrite (digits_value_no_digit 0 c ip Hc).
Qed.

Lemma parse_decimal_no_digit (s : text) :
  Forall (fun c => is_digit c = false) s -> parse_decimal s = None.
Proof.
  intros Hs. unfold parse_decimal. destruct s as [|c s]; [done|].
  pose proof Hs as Hs'. apply Forall_cons in Hs' as [_ Htl].
  repeat case_match; by apply parse_unsigned_no_digit.
Qed.

Lemma split_suffix_no_digit (s : text) :
  Forall (fun c => is_digit c = false) s ->
  Forall (fun c => is_digit c = false) (split_suffix s).1.
Proof.
  intros Hs. unfold split_suffix.
  assert (Hrev : Forall (fun c => is_digit c = false) (reverse s))
    by (by apply Forall_reverse).
  destruct (reverse s) as [|r rest]; [done|].
  apply Forall_cons in Hrev as [_ Hrest].
  destruct rest as [|c rest'].
  - by repeat case_match.
  - pose proof Hrest as Hrest'. apply Forall_cons in Hrest' as [_ Hrest''].
    repeat case_match; simpl; try done; by apply Forall_reverse.
Qed.

Lemma parse_number_no_digit (raw : text) :
  Forall (fun c => is_digit c = false) raw ->
  parse_number currency_symbols raw = None.
Proof.
  intros H. unfold parse_number.
  pose proof (split_suffix_no_digit _ (strip_no_digit raw H)) as Hn.
  destruct (split_suffix (strip currency_symbols raw)) as [numeral multiplier].
  simpl in Hn. by rewrite (parse_decimal_no_digit numeral Hn).
Qed.

End NumberFacts.

Example clean_rupees :
  Backend.clean_number [0x20B9%N] (Backend.py "₹1.2Cr")
  = Backend.mkField Backend.TNumber (Backend.VNumber (Qmake 12000000 1)) Backend.normalized.
Proof. vm_compute. reflexivity. Qed.
Example clean_k :
  Backend.clean_number [0x20B9%N] (Backend.py "3.5K")
  = Backend.mkField Backend.TNumber (Backend.VNumber (Qmake 3500 1)) Backend.normalized.
Proof. vm_compute. reflexivity. Qed.
Example clean_plain :
  Backend.clean_number [0x20B9%N] (Backend.py "-1,250.75")
  = Backend.mkField Backend.TNumber (Backend.VNumber (Qmake (-5003) 4)) Backend.normalized.
Proof. vm_compute. reflexivity. Qed.
Example clean_bad :
  Backend.clean_number [0x20B9%N] (Backend.py "n/a")
  = Backend.mkField Backend.TNumber (Backend.VRaw (Backend.py "n/a")) Backend.unparseable.
Proof. vm_compute. reflexivity. Qed.

Section NumberContract.

Import Backend.

Variable currency_symbols : list N.
Hypothesis rupee_is_currency : 0x20B9%N ∈ currency_symbols.
Hypothesis currency_not_numeral :
  forall x, x ∈ currency_symbols -> numeral_char x = false.

(** Evaluate [clean_number] on a literal: spell the literal out, strip it
    character by character, and compute the rest. *)
Ltac clean_literal lit :=
  unfold clean_number, parse_number, py;
  let l := eval vm_compute in (js lit) in
  change (js lit) with l;
  repeat first
    [ rewrite strip_nil
    | rewrite strip_currency by exact rupee_is_currency
    | rewrite strip_separator
    | rewrite strip_numeral_char
        by first [exact currency_not_numeral | reflexivity] ];
  vm_compute; reflexivity.

Lemma clean_number_rupees_crore :
  clean_number currency_symbols (py "₹1.2Cr")
  = mkField TNumber (VNumber (Qmake 12000000 1)) normalized.
Proof. clean_literal "₹1.2Cr". Qed.

Lemma clean_number_thousands :
  clean_number currency_symbols (py "3.5K")
  = mkField TNumber (VNumber (Qmake 3500 1)) normalized.
Proof. clean_literal "3.5K". Qed.

Lemma clean_number_suffix_case :
  value (clean_number currency_symbols (py "3.5k")) = VNumber (Qmake 3500 1)
  /\ value (clean_number currency_symbols (py "2M")) = VNumber (Qmake 2000000 1)
  /\ value (clean_number currency_symbols (py "2m")) = VNumber (Qmake 2000000 1)
  /\ value (clean_number currency_symbols (py "1.2cr")) = VNumber (Qmake 12000000 1)
  /\ value (clean_number currency_symbols (py "1.2CR")) = VNumber (Qmake 12000000 1)
  /\ value (clean_number currency_symbols (py "₹1,250")) = VNumber (Qmake 1250 1).
Proof.
  split_and!.
  - clean_literal "3.5k".
  - clean_literal "2M".
  - clean_literal "2m".
  - clean_literal "1.2cr".
  - clean_literal "1.2CR".
  - clean_literal "₹1,250".
Qed.

Lemma clean_number_failure (raw : text) :
  parse_number currency_symbols raw = None ->
  clean_number currency_symbols raw = mkField TNumber (VRaw raw) unparseable
  /\ tally (clean_number currency_symbols raw) = mkCounters 0 0 0 1 0.
Proof. intros H. unfold clean_number. by rewrite H. Qed.

Lemma clean_number_total (raw : text) :
  (exists q, value (clean_number currency_symbols raw) = VNumber q
             /\ parse_number currency_symbols raw = Some q
             /\ unparseable_numbers
                  (tally (clean_number currency_symbols raw)) = 0%nat)
  \/ clean_number currency_symbols raw = mkField TNumber (VRaw raw) unparseable.
Proof.
  unfold clean_number.
  destruct (parse_number currency_symbols raw) as [q|]; [left|by right].
  exists q. split_and!; try done. by destruct (parse_decimal raw).
Qed.

End NumberContract.



(* ===================================================================== *)
(** ** The clarification short-circuit                                    *)
(* ===================================================================== *)

(** C7.  When the plan of a request needs clarification, the envelope
    carries the empty quality report, a trace with no FETCHING and no
    CLEANING entry (it ends in CLARIFYING), and the clarification question
    as the answer; nothing is fetched, cleaned, aggregated or composed:
    the envelope is the same whatever the data source, the cleaner, the
    metric engine and the composer would have returned. *)
Theorem clarification_short_circuits
    (currency_symbols : list N)
    (clean_date clean_text clean_status :
       Backend.text -> Backend.Canonical * Backend.Provenance)
    (summarise : Backend.Counters -> bool)
    (Metrics : Type)
    (schema_of : N -> gmap string Backend.FieldType)
    (ask_plan : Backend.text -> list (Backend.Role * Backend.text) -> nat
                -> option Backend.QueryPlan)
    (rephrase_question : Backend.text)
    (fetch : N -> option (list (gmap string Backend.text)))
    (compute : list (gmap string Backend.CleanedField) -> Backend.QueryPlan
               -> Metrics)
    (compose_llm : Metrics -> Backend.QualityReport -> Backend.text
                   -> option Backend.text)
    (template_summary : Metrics -> Backend.text)
    (failure_answer : Backend.text)
    (utterance : Backend.text) (history : list (Backend.Role * Backend.text)) :
  let plan := Backend.plan_query ask_plan rephrase_question utterance history in
  Backend.needs_clarification plan = true ->
  let envelope :=
    Backend.orchestrate currency_symbols clean_date clean_text clean_status
      summarise Metrics schema_of ask_plan rephrase_question fetch compute
      compose_llm template_summary failure_answer utterance history in
  Backend.data_quality_report envelope = Backend.empty_report
  /\ Backend.counters (Backend.data_quality_report envelope)
     = Backend.mkCounters 0 0 0 0 0
  /\ Forall (fun e => Backend.stage e <> Backend.FETCHING
                      /\ Backend.stage e <> Backend.CLEANING)
            (Backend.action_trace envelope)
  /\ (exists before,
        Backend.action_trace envelope
        = before ++ [Backend.mkEntry Backend.CLARIFYING Backend.Succeeded None])
  /\ (forall q, Backend.clarification_question plan = Some q ->
                Backend.answer envelope = q)
  /\ forall (currency_symbols' : list N)
       (clean_date' clean_text' clean_status' :
          Backend.text -> Backend.Canonical * Backend.Provenance)
       (summarise' : Backend.Counters -> bool)
       (schema_of' : N -> gmap string Backend.FieldType)
       (fetch' : N -> option (list (gmap string Backend.text)))
       (compute' : list (gmap string Backend.CleanedField)
                   -> Backend.QueryPlan -> Metrics)
       (compose_llm' : Metrics -> Backend.QualityReport -> Backend.text
                       -> option Backend.text)
       (template_summary' : Metrics -> Backend.text)
       (failure_answer' : Backend.text),
       Backend.orchestrate currency_symbols' clean_date' clean_text'
         clean_status' summarise' Metrics schema_of' ask_plan
         rephrase_question fetch' compute' compose_llm' template_summary'
         failure_answer' utterance history
       = envelope.
Proof.
  intros plan Hclar envelope. subst envelope plan. unfold Backend.orchestrate.
  rewrite Hclar. simpl. split_and!.
  - done.
  - done.
  - repeat constructor; done.
  - by eexists [_; _].
  - by intros q ->.
  - done.
Qed.

Lemma clarification_short_circuits_witness :
  Backend.data_quality_report
    (Backend.orchestrate [0x20B9%N] sample_clean_text sample_clean_text
       sample_clean_text (fun _ => true) Backend.text (fun _ => deals_schema)
       unparsed_plan (Backend.py "Could you rephrase the question?")
       (fun _ => Some [item_A]) (fun _ _ => Backend.py "42")
       (fun _ _ _ => None) (fun m => m) (Backend.py "Something went wrong.")
       (Backend.py "deals??") [])
  = Backend.empty_report.
Proof.
  exact (proj1 (clarification_short_circuits [0x20B9%N] sample_clean_text
                  sample_clean_text sample_clean_text (fun _ => true)
                  Backend.text (fun _ => deals_schema) unparsed_plan
                  (Backend.py "Could you rephrase the question?")
                  (fun _ => Some [item_A]) (fun _ _ => Backend.py "42")
                  (fun _ _ _ => None) (fun m => m)
                  (Backend.py "Something went wrong.")
                  (Backend.py "deals??") [] eq_refl)).
Defined.

Example pipeline_partial_failure :
  let plan := Backend.mkPlan [1%N; 2%N] [] [] (Backend.py "summary") false None in
  Backend.action_trace
    (Backend.orchestrate [0x20B9%N] sample_clean_text sample_clean_text
       sample_clean_text (fun _ => true) Backend.text (fun _ => deals_schema)
       (fun _ _ _ => Some plan) (Backend.py "Could you rephrase the question?")
       (fun b => if (b =? 1)%N then None else Some [item_A; item_B])
       (fun _ _ => Backend.py "42")
       (fun _ _ _ => None) (fun m => m) (Backend.py "Something went wrong.")
       (Backend.py "pipeline value?") [])
  = [Backend.mkEntry Backend.PLANNING Backend.Entered None;
     Backend.mkEntry Backend.FETCHING Backend.Entered None;
     Backend.mkEntry Backend.FETCHING Backend.Failure (Some 1%N);
     Backend.mkEntry Backend.CLEANING Backend.Entered None;
     Backend.mkEntry Backend.AGGREGATING Backend.Entered None;
     Backend.mkEntry Backend.COMPOSING Backend.Entered None;
     Backend.mkEntry Backend.DONE Backend.Entered None;
     Backend.mkEntry Backend.DONE Backend.Succeeded None].
Proof. vm_compute. reflexivity. Qed.

(* ===================================================================== *)
(** * Further properties of the frontend                                  *)
(* ===================================================================== *)

(** ** Rounds of [handleSend]: every way a round can end *)

Lemma js_cross_error_prefix : js "❌ Error: " = 0x274C%N :: js " Error: ".
Proof. reflexivity. Qed.

(** The shape of a round, whichever way it ends. *)
Lemma dispatch_round_shape (env : JsVal) (backend : Request -> Exchange)
    (toFixed1 : Z -> jsstring) (tem : JsVal -> string -> jsstring)
    (message : jsstring) (w : World) :
  exists reply : Msg,
    AppJsx.dispatch_handleSend env backend toFixed1 tem message w
    = (Ok tt,
       mkWorld
         (mkAppState
            (messages (ui w) ++ [AppJsx.user_turn message; reply])
            (actionTrace
               (ui (AppJsx.dispatch_handleSend env backend toFixed1 tem
                      message w).2))
            (dataQualityReport
               (ui (AppJsx.dispatch_handleSend env backend toFixed1 tem
                      message w).2))
            false true (darkMode (ui w)))
         (requests w ++ [AppJsx.round_request env (messages (ui w)) message])
         (clock w
          + duration (backend (AppJsx.round_request env (messages (ui w))
                                 message))))
    /\ role reply = js "assistant"
    /\ responseTime reply
       = Some (toFixed1
                 (duration (backend (AppJsx.round_request env (messages (ui w))
                                       message)))).
Proof.
  rewrite dispatch_handleSend_run. cbv zeta.
  destruct (outcome _) as [r|e]; [destruct (get (data r) "answer")|];
    eexists; split_and!; reflexivity.
Qed.

(** X1.  A response that resolves with the body [null] or [undefined]
    ends in the [catch] branch: reading [response.answer] throws, so the
    reply is the fixed apology, the trace ends with a failure entry that
    carries the message of that [TypeError], and the quality report on
    display is left as it was.  A body that is a string, a number, a
    boolean or an array does not throw: the reply has [undefined] as its
    content, the trace is emptied and the quality report becomes [null]. *)
Theorem handleSend_body_without_envelope (env : JsVal)
    (backend : Request -> Exchange) (toFixed1 : Z -> jsstring)
    (tem : JsVal -> string -> jsstring) (message : jsstring) (w : World)
    (r : Response) :
  let req := AppJsx.round_request env (messages (ui w)) message in
  outcome (backend req) = Resolved r ->
  let w' := (AppJsx.dispatch_handleSend env backend toFixed1 tem message w).2 in
  let elapsed := toFixed1 (duration (backend req)) in
  (data r = JNull \/ data r = JUndefined ->
   messages (ui w')
     = messages (ui w)
       ++ [mkMsg (js "user") (JStr message) None;
           mkMsg (js "assistant") (JStr AppJsx.fallback_answer) (Some elapsed)]
   /\ actionTrace (ui w')
      = JArr [JStr (js "Sending query to agent...");
              JStr (js "❌ Error: " ++ tem (data r) "answer")]
   /\ dataQualityReport (ui w') = dataQualityReport (ui w))
  /\ ((exists s, data r = JStr s) \/ (exists x, data r = JNum x)
      \/ (exists b, data r = JBool b) \/ (exists l, data r = JArr l) ->
      messages (ui w')
        = messages (ui w)
          ++ [mkMsg (js "user") (JStr message) None;
              mkMsg (js "assistant") JUndefined (Some elapsed)]
      /\ actionTrace (ui w') = JArr []
      /\ dataQualityReport (ui w') = JNull).
Proof.
  intros req Hout w' elapsed. subst w' elapsed.
  rewrite dispatch_handleSend_run. cbv zeta. fold req. rewrite Hout.
  split.
  - intros [-> | ->]; by split_and!.
  - intros [[s ->] | [[x ->] | [[b ->] | [l ->]]]]; by split_and!.
Qed.


(** ** The round around its [await] *)

Lemma axios_post_split (backend : Request -> Exchange) (u : jsstring)
    (b : JsVal) (w : World) :
  axios_post backend u b w
  = (req ← AppAsync.axios_send u b; AppAsync.axios_settle backend req) w.
Proof.
  unfold axios_post, AppAsync.axios_send, AppAsync.axios_settle, mbind, M_bind,
    bind. simpl. by destruct (outcome _).
Qed.


(** X4.  While the request is in flight the page already shows the user's
    message after the earlier ones, [loading] is on, the trace panel is
    open with the single entry "Sending query to agent...", the quality
    report of the round before is still there, and the request has left
    with the earlier turns as its history.  In that state the input bar
    sends nothing, whatever is typed, and the chat shows the conversation
    with the "Analyzing..." indicator and no suggestion. *)
Theorem handleSend_in_flight (env : JsVal) (message : jsstring) (w : World) :
  let prior := messages (ui w) in
  let run := AppAsync.handleSend_until_await env prior message w in
  let req := AppJsx.round_request env prior message in
  run.1 = Ok (clock w, req)
  /\ ui run.2
     = mkAppState (prior ++ [mkMsg (js "user") (JStr message) None])
         (JArr [JStr (js "Sending query to agent...")])
         (dataQualityReport (ui w)) true true (darkMode (ui w))
  /\ requests run.2 = requests w ++ [req]
  /\ clock run.2 = clock w
  /\ (forall (typed : jsstring) (e : InputBarJsx.KeyboardEvent),
        InputBarJsx.sent
          (InputBarJsx.handleKeyDown (loading (ui run.2)) typed e).2 = []
        /\ InputBarJsx.sent
             (InputBarJsx.button_click (loading (ui run.2)) typed) = [])
  /\ forall querySetIndex : Z,
       ChatWindowJsx.ChatWindow (messages (ui run.2)) (loading (ui run.2))
         querySetIndex
       = Ok (ChatWindowJsx.Conversation
               ((ChatWindowJsx.render_message <$> prior)
                ++ [ChatWindowJsx.UserBubble (JStr message)])
               true).
Proof.
  intros prior run req. subst run.
  assert (Hl : loading (ui (AppAsync.handleSend_until_await env prior message w).2)
               = true) by reflexivity.
  split_and!; try reflexivity.
  - intros typed e. rewrite Hl. split.
    + unfold InputBarJsx.handleKeyDown.
      destruct (_ && _); [|done]. rewrite handleSubmit_cases.
      by destruct (trim typed).
    + rewrite button_click_submit, handleSubmit_cases. by destruct (trim typed).
  - intros idx. simpl. unfold ChatWindowJsx.ChatWindow.
    destruct (prior ++ _) as [|m ms] eqn:E.
    + by destruct prior.
    + rewrite <- E. by rewrite fmap_app.
Qed.

(** ** Several rounds: the conversation and what the backend is told *)

Lemma rounds_shape (env : JsVal) (backend : Request -> Exchange)
    (toFixed1 : Z -> jsstring) (tem : JsVal -> string -> jsstring)
    (texts : list jsstring) (w : World) :
  exists (added : list Msg) (sent : list Request),
    (AppAsync.rounds env backend toFixed1 tem texts w).1 = Ok tt
    /\ messages (ui (AppAsync.rounds env backend toFixed1 tem texts w).2)
       = messages (ui w) ++ added
    /\ requests (AppAsync.rounds env backend toFixed1 tem texts w).2
       = requests w ++ sent
    /\ length added = (2 * length texts)%nat
    /\ length sent = length texts
    /\ forall (k : nat) (t : jsstring), texts !! k = Some t ->
         added !! (2 * k)%nat = Some (AppJsx.user_turn t)
         /\ (exists reply, added !! (2 * k + 1)%nat = Some reply
                           /\ role reply = js "assistant")
         /\ sent !! k
            = Some (AppJsx.round_request env
                      (messages (ui w) ++ take (2 * k) added) t).
Proof.
  revert w. induction texts as [|t texts IH]; intros w.
  - exists [], []. simpl. rewrite !app_nil_r. by split_and!.
  - destruct (dispatch_round_shape env backend toFixed1 tem t w)
      as (reply & Hrun & Hrole & _).
    cbn [AppAsync.rounds]. unfold mbind, M_bind, bind. rewrite Hrun.
    match goal with
    | |- context [AppAsync.rounds _ _ _ _ texts ?w1] =>
        destruct (IH w1) as (added & sent & Hok & Hmsgs & Hreqs & Hla & Hls & Hk)
    end.
    cbn [ui messages requests] in Hmsgs, Hreqs, Hk.
    exists ([AppJsx.user_turn t; reply] ++ added),
           (AppJsx.round_request env (messages (ui w)) t :: sent).
    split_and!.
    + done.
    + by rewrite Hmsgs, <- app_assoc.
    + by rewrite Hreqs, <- app_assoc.
    + simpl. rewrite Hla. lia.
    + simpl. by rewrite Hls.
    + intros [|k] t' Ht'.
      * injection Ht' as <-. simpl. rewrite app_nil_r. split_and!; eauto.
      * simpl in Ht'. destruct (Hk k t' Ht') as (Hu & Hr & Hs).
        replace (2 * S k)%nat with (S (S (2 * k))) by lia.
        replace (S (S (2 * k)) + 1)%nat with (S (S (2 * k + 1))) by lia.
        simpl. split_and!; [done | done |].
        rewrite Hs. f_equal. f_equal. by rewrite <- app_assoc.
Qed.

(** X5.  When the user sends one text after the other on a freshly
    mounted page, no round fails to complete, the conversation ends up
    with two turns per text, the user's text and then a reply, in the order
    sent, and one request has been made per text.  The request of round
    [k] carries the text of that round and, as its history, exactly the
    first [2k] turns of the conversation: everything said before it and
    nothing of what came after. *)
Theorem rounds_conversation_memory (env : JsVal)
    (backend : Request -> Exchange) (toFixed1 : Z -> jsstring)
    (tem : JsVal -> string -> jsstring) (dark : bool) (now : Z)
    (texts : list jsstring) :
  let run := AppAsync.rounds env backend toFixed1 tem texts
               (AppJsx.initial_world dark now) in
  let conversation := messages (ui run.2) in
  run.1 = Ok tt
  /\ length conversation = (2 * length texts)%nat
  /\ length (requests run.2) = length texts
  /\ forall (k : nat) (t : jsstring), texts !! k = Some t ->
       conversation !! (2 * k)%nat = Some (mkMsg (js "user") (JStr t) None)
       /\ (exists reply, conversation !! (2 * k + 1)%nat = Some reply
                         /\ role reply = js "assistant")
       /\ exists (req : Request) (b : gmap string JsVal),
            requests run.2 !! k = Some req
            /\ body req = JObj b
            /\ b !! "message" = Some (JStr t)
            /\ b !! "history"
               = Some (JArr (AppJsx.turn_of <$> take (2 * k) conversation)).
Proof.
  intros run conversation. subst run conversation.
  destruct (rounds_shape env backend toFixed1 tem texts
              (AppJsx.initial_world dark now))
    as (added & sent & Hok & Hmsgs & Hreqs & Hla & Hls & Hk).
  simpl in Hmsgs, Hreqs, Hk. rewrite Hmsgs, Hreqs.
  split_and!; try done.
  intros k t Ht. destruct (Hk k t Ht) as (Hu & Hr & Hs).
  split_and!; try done.
  eexists _, _. split; [exact Hs|]. split_and!; reflexivity.
Qed.

(** ** The trace panel: connectors, ill-typed traces, and what a round
    puts on it *)

Section TracePanelFacts.

Import ActionTraceJsx.

Lemma map_steps_connectors (len : nat) (ss : list jsstring) (index : nat) :
  exists rows, map_steps len index (JStr <$> ss) = Ok rows
    /\ length rows = length ss
    /\ forall (i : nat) (row : Row), rows !! i = Some row ->
         connector row = negb (Z.of_nat (index + i) =? Z.of_nat len - 1).
Proof.
  revert index. induction ss as [|s ss IH]; intros index.
  - exists []. by split_and!.
  - destruct (IH (S index)) as (rows & Hrows & Hlen & Hcon).
    eexists. cbn [fmap list_fmap map_steps render_step].
    change (list_fmap _ _ JStr ss) with (JStr <$> ss). rewrite Hrows.
    split_and!; [reflexivity | simpl; by rewrite Hlen |].
    intros [|i] row Hrow.
    + injection Hrow as <-. simpl. by rewrite Nat.add_0_r.
    + simpl in Hrow. rewrite (Hcon i row Hrow).
      by replace (index + S i)%nat with (S index + i)%nat by lia.
Qed.

Lemma ActionTrace_nonempty_array (v : JsVal) (l : list JsVal) :
  ActionTrace (JArr (v :: l))
  = match map_steps (length (v :: l)) 0 (v :: l) with
    | Ok rows => Ok (Timeline rows)
    | Throw e => Throw e
    end.
Proof.
  unfold ActionTrace. change (truthy (JArr _)) with true. cbn [negb get].
  rewrite decide_True by done.
  change (strict_eq_num _ 0) with (Z.of_nat (length (v :: l)) =? 0).
  by destruct (Z.eqb_spec (Z.of_nat (length (v :: l))) 0) as [H0|_];
    [simpl in H0; lia|].
Qed.

(** X6.  In a timeline of one or more entries every row but the last
    draws the line down to the next row, and the last row draws none. *)
Theorem ActionTrace_connectors (s : jsstring) (ss : list jsstring) :
  exists rows : list Row,
    ActionTrace (JArr (JStr <$> s :: ss)) = Ok (Timeline rows)
    /\ length rows = S (length ss)
    /\ forall (i : nat) (row : Row), rows !! i = Some row ->
         (connector row = false <-> i = length ss).
Proof.
  destruct (map_steps_connectors (length (JStr <$> s :: ss)) (s :: ss) 0)
    as (rows & Hrows & Hlen & Hcon).
  exists rows.
  change (JStr <$> s :: ss) with (JStr s :: (JStr <$> ss)) in *.
  rewrite ActionTrace_nonempty_array.
  change (JStr s :: (JStr <$> ss)) with (JStr <$> s :: ss) in *.
  rewrite Hrows. split_and!; [done | done |].
  intros i row Hrow. rewrite (Hcon i row Hrow).
  rewrite length_fmap. simpl length.
  destruct (Z.eqb_spec (Z.of_nat (0 + i)) (Z.of_nat (S (length ss)) - 1));
    simpl; split; try done; lia.
Qed.

Lemma map_steps_first_bad (len index : nat) (pre : list jsstring)
    (v : JsVal) (post : list JsVal) :
  is_string v = false ->
  map_steps len index ((JStr <$> pre) ++ v :: post)
  = Throw (TypeError v "startsWith").
Proof.
  intros Hv. revert index. induction pre as [|s pre IH]; intros index.
  - simpl. by destruct v.
  - cbn [fmap list_fmap app map_steps render_step].
    change (list_fmap _ _ JStr pre) with (JStr <$> pre). by rewrite IH.
Qed.


End TracePanelFacts.

Lemma DataQualityReport_or_null (v : JsVal) (expanded : bool) :
  DataQualityReportJsx.DataQualityReport (js_or v JNull) expanded
  = DataQualityReportJsx.DataQualityReport v expanded.
Proof.
  unfold js_or. destruct (truthy v) eqn:Hv; [done|].
  unfold DataQualityReportJsx.DataQualityReport. by rewrite Hv.
Qed.

(** X8.  After a rejected request the trace panel shows two rows: the
    neutral "Sending query to agent..." with a line below it, and, last and
    in red, the failure entry with the message of the error. *)
Theorem failed_round_renders_red (env : JsVal) (backend : Request -> Exchange)
    (toFixed1 : Z -> jsstring) (tem : JsVal -> string -> jsstring)
    (message : jsstring) (w : World) (e : JsError) :
  outcome (backend (AppJsx.round_request env (messages (ui w)) message))
    = Rejected e ->
  ActionTraceJsx.ActionTrace
    (actionTrace
       (ui (AppJsx.dispatch_handleSend env backend toFixed1 tem message w).2))
  = Ok (ActionTraceJsx.Timeline
          [ActionTraceJsx.mkRow ActionTraceJsx.accent true
             (js "Sending query to agent...");
           ActionTraceJsx.mkRow ActionTraceJsx.red false
             (js "❌ Error: " ++ AppJsx.error_message tem e)]).
Proof.
  intros Hout. rewrite dispatch_handleSend_run. cbv zeta. rewrite Hout.
  cbn [snd ui actionTrace AppJsx.failed_ui].
  rewrite ActionTrace_nonempty_array.
  rewrite js_cross_error_prefix. reflexivity.
Qed.

(** X9.  What the backend sends is what the panels show.  When the
    response is an object whose [action_trace] is an array of strings, the
    trace panel shows one row per string, in order; when it has no
    [action_trace], the panel shows its placeholder.  The quality card
    shows what it would show for the [data_quality_report] of the
    response: replacing an absent report by [null] changes nothing of
    it. *)
Theorem resolved_round_renders_envelope (env : JsVal)
    (backend : Request -> Exchange) (toFixed1 : Z -> jsstring)
    (tem : JsVal -> string -> jsstring) (message : jsstring) (w : World)
    (r : Response) (m : gmap string JsVal) :
  outcome (backend (AppJsx.round_request env (messages (ui w)) message))
    = Resolved r ->
  data r = JObj m ->
  let s' := ui (AppJsx.dispatch_handleSend env backend toFixed1 tem message w).2 in
  (forall ss : list jsstring,
     m !! "action_trace" = Some (JArr (JStr <$> ss)) ->
     exists v, ActionTraceJsx.ActionTrace (actionTrace s') = Ok v
               /\ ActionTraceJsx.text <$> ActionTraceJsx.rows_of v = ss)
  /\ (m !! "action_trace" = None ->
      ActionTraceJsx.ActionTrace (actionTrace s') = Ok ActionTraceJsx.Placeholder)
  /\ forall expanded : bool,
       DataQualityReportJsx.DataQualityReport (dataQualityReport s') expanded
       = DataQualityReportJsx.DataQualityReport
           (default JUndefined (m !! "data_quality_report")) expanded.
Proof.
  intros Hout Hdata s'. subst s'.
  rewrite dispatch_handleSend_run. cbv zeta. rewrite Hout, Hdata.
  cbn [get snd ui actionTrace dataQualityReport AppJsx.answered_ui].
  rewrite !get_opt_obj. split_and!.
  - intros ss Hss. rewrite Hss. cbn [default from_option id]. unfold js_or.
    change (truthy (JArr _)) with true. cbv iota.
    destruct ss as [|s ss]; [by exists ActionTraceJsx.Placeholder|].
    destruct (map_steps_strings (length (JStr <$> s :: ss)) (s :: ss) 0)
      as (rows & Hrows & Htexts & _).
    exists (ActionTraceJsx.Timeline rows).
    change (JStr <$> s :: ss) with (JStr s :: (JStr <$> ss)) in *.
    rewrite ActionTrace_nonempty_array.
    change (JStr s :: (JStr <$> ss)) with (JStr <$> s :: ss) in *.
    by rewrite Hrows.
  - by intros ->.
  - intros expanded. apply DataQualityReport_or_null.
Qed.

(** ** The chat window *)

Section ChatWindowFacts.

Import ChatWindowJsx.

Lemma next_index_in_range (idx : Z) :
  0 <= idx -> 0 <= next_index idx < 3 /\ next_index idx = (idx + 1) `mod` 3.
Proof.
  intros H. unfold next_index. change (Z.of_nat (length QUERY_SETS)) with 3.
  rewrite Z.rem_mod_nonneg by lia. split; [|done].
  apply Z.mod_pos_bound. lia.
Qed.

Lemma iter_next_index (n : nat) (idx : Z) :
  0 <= idx < 3 ->
  0 <= Nat.iter n next_index idx < 3
  /\ Nat.iter n next_index idx = (idx + Z.of_nat n) `mod` 3.
Proof.
  intros Hidx. induction n as [|n [IHr IHe]].
  - simpl. split; [done|]. rewrite Z.add_0_r. by rewrite Z.mod_small.
  - rewrite Nat.iter_succ.
    destruct (next_index_in_range (Nat.iter n next_index idx))
      as [Hr He]; [lia|]. split; [done|].
    rewrite He, IHe. rewrite Zplus_mod_idemp_l. f_equal. lia.
Qed.

Lemma currentQueries_in_range (idx : Z) :
  0 <= idx < 3 ->
  exists qs, currentQueries idx = Some qs /\ length qs = 4%nat.
Proof.
  intros H. assert (idx = 0 \/ idx = 1 \/ idx = 2) as [-> | [-> | ->]] by lia;
    eexists; split; reflexivity.
Qed.

(** X10.  Started at an index of one of the three suggestion sets, the
    rotation never leaves them: after any number of ticks the index is
    still that of a set, the empty chat shows that set's four suggestions
    without throwing, and after three ticks the first set is back.  The
    rotation stands still once there is a message.  With an index outside
    the table the empty chat would throw. *)
Theorem ChatWindow_rotation_in_bounds (idx : Z) (loading : bool) :
  0 <= idx < 3 ->
  (forall n : nat,
     let shown := Nat.iter n (on_interval []) idx in
     0 <= shown < 3
     /\ shown = (idx + Z.of_nat n) `mod` 3
     /\ exists qs, ChatWindow [] loading shown = Ok (EmptyState qs)
                   /\ QUERY_SETS !! Z.to_nat shown = Some qs
                   /\ length qs = 4%nat)
  /\ Nat.iter 3 (on_interval []) idx = idx
  /\ (forall (m : Msg) (ms : list Msg) (i : Z), on_interval (m :: ms) i = i)
  /\ (forall i : Z, i < 0 \/ 3 <= i ->
        ChatWindow [] loading i = Throw (TypeError JUndefined "map")).
Proof.
  intros Hidx. split_and!.
  - intros n shown. subst shown.
    change (on_interval []) with next_index.
    destruct (iter_next_index n idx Hidx) as [Hr He].
    split_and!; [lia | lia | done |].
    destruct (currentQueries_in_range _ Hr) as (qs & Hqs & Hlen).
    exists qs. unfold ChatWindow. rewrite Hqs. split_and!; try done.
    unfold currentQueries in Hqs.
    by destruct (Z.ltb_spec (Nat.iter n next_index idx) 0); [lia|].
  - change (on_interval []) with next_index.
    destruct (iter_next_index 3 idx Hidx) as [_ ->].
    change (Z.of_nat 3) with (1 * 3).
    rewrite Z_mod_plus_full. by apply Z.mod_small.
  - done.
  - intros i Hi. unfold ChatWindow, currentQueries.
    destruct (Z.ltb_spec i 0); [done|].
    destruct Hi as [Hi | Hi]; [lia|].
    rewrite (lookup_ge_None_2 QUERY_SETS (Z.to_nat i)); [done|]. simpl. lia.
Qed.

Lemma render_user_turn (t : jsstring) :
  render_message (AppJsx.user_turn t) = UserBubble (JStr t).
Proof. reflexivity. Qed.

Lemma render_assistant (c : JsVal) (rt : option jsstring) :
  render_message (mkMsg (js "assistant") c rt)
  = AssistantBlock c (response_badge (mkMsg (js "assistant") c rt)).
Proof. reflexivity. Qed.

(** X11.  After a round, however it ended, the chat shows the
    conversation and never the suggestions again, whatever the rotation
    index: the bubbles of the earlier messages, then the user's text on the
    right, then the reply with its response time badge (the elapsed time
    followed by "s", or no badge if that text were empty), and the
    "Analyzing..." indicator is gone. *)
Theorem ChatWindow_after_round (env : JsVal) (backend : Request -> Exchange)
    (toFixed1 : Z -> jsstring) (tem : JsVal -> string -> jsstring)
    (message : jsstring) (w : World) (querySetIndex : Z) :
  let s' := ui (AppJsx.dispatch_handleSend env backend toFixed1 tem message w).2 in
  let elapsed :=
    toFixed1 (duration (backend (AppJsx.round_request env (messages (ui w))
                                   message))) in
  exists answer : JsVal,
    ChatWindow (messages s') (loading s') querySetIndex
    = Ok (Conversation
            ((render_message <$> messages (ui w))
             ++ [UserBubble (JStr message);
                 AssistantBlock answer
                   (match elapsed with
                    | [] => None
                    | _ :: _ => Some (elapsed ++ js "s")
                    end)])
            false).
Proof.
  intros s' elapsed. subst s'.
  destruct (dispatch_round_shape env backend toFixed1 tem message w)
    as (reply & Hrun & Hrole & Htime).
  rewrite Hrun. cbn [snd ui messages loading].
  exists (content reply). unfold ChatWindow.
  destruct (messages (ui w) ++ _) as [|m ms] eqn:E;
    [by destruct (messages (ui w))|].
  rewrite <- E, fmap_app. do 3 f_equal. cbn [fmap list_fmap].
  rewrite render_user_turn. do 2 f_equal.
  destruct reply as [rl c rt]. simpl in Hrole, Htime. subst rl rt.
  rewrite render_assistant. f_equal. unfold response_badge. simpl.
  fold elapsed. by destruct elapsed.
Qed.

End ChatWindowFacts.


(** ** The theme *)

Section ThemeFacts.

Import AppThemeJsx.

Lemma initial_after_effect (darkMode : bool) (b : Browser) :
  initial_darkMode (theme_effect darkMode b) = darkMode.
Proof.
  unfold initial_darkMode, theme_effect. cbn [localStorage].
  rewrite lookup_insert_eq. unfold theme_name. destruct darkMode.
  - by apply bool_decide_eq_true_2.
  - apply bool_decide_eq_false_2. intros H. vm_compute in H. discriminate H.
Qed.

(** X13.  The theme survives a reload: mounting the page on the browser
    state that a render with [darkMode] left behind starts in that same
    mode, so a toggle followed by a reload shows the toggled theme.  On a
    first visit, or with anything but "dark" stored, the page starts light
    and stores "light".  After every render the stored theme and the
    attribute of the document agree, two toggles bring both back, and no
    other key of the storage is touched. *)
Theorem theme_round_trip (b : Browser) (darkMode : bool) :
  initial_darkMode (theme_effect darkMode b) = darkMode
  /\ (mount (toggle darkMode b).2).1 = negb darkMode
  /\ (localStorage b !! "theme" <> Some (js "dark") ->
      mount b = (false, theme_effect false b)
      /\ localStorage (mount b).2 !! "theme" = Some (js "light"))
  /\ data_theme (theme_effect darkMode b)
     = localStorage (theme_effect darkMode b) !! "theme"
  /\ toggle (toggle darkMode b).1 (toggle darkMode b).2
     = (darkMode, theme_effect darkMode b)
  /\ mount (mount b).2 = mount b
  /\ forall k : string, k <> "theme" ->
       localStorage (theme_effect darkMode b) !! k = localStorage b !! k.
Proof.
  split_and!.
  - apply initial_after_effect.
  - unfold mount, toggle. simpl. apply initial_after_effect.
  - intros H. unfold mount.
    assert (Hi : initial_darkMode b = false)
      by (by apply bool_decide_eq_false).
    rewrite Hi. split; [done|]. simpl. by rewrite lookup_insert_eq.
  - unfold theme_effect. simpl. by rewrite lookup_insert_eq.
  - unfold toggle, theme_effect. simpl. rewrite negb_involutive.
    by rewrite insert_insert_eq.
  - unfold mount. cbn [snd]. rewrite initial_after_effect.
    unfold theme_effect. simpl. by rewrite insert_insert_eq.
  - intros k Hk. unfold theme_effect. simpl. by rewrite lookup_insert_ne.
Qed.

End ThemeFacts.

(** ** The input bar and the wire *)

(** X14.  The send button is disabled exactly when a submit would send
    nothing: whenever it is enabled, a submit sends the trimmed text and
    clears the field, and whenever it is disabled, a submit (by the Enter
    key, which the button's state does not stop) sends nothing and leaves
    the field as it is. *)
Theorem button_disabled_iff_nothing_sent (loading : bool) (message : jsstring) :
  (InputBarJsx.button_disabled loading message = true
   <-> InputBarJsx.sent (InputBarJsx.handleSubmit loading message) = [])
  /\ (InputBarJsx.button_disabled loading message = false
      <-> InputBarJsx.handleSubmit loading message
          = InputBarJsx.mkEffect [trim message] [])
  /\ (InputBarJsx.button_disabled loading message = true
      <-> InputBarJsx.handleSubmit loading message
          = InputBarJsx.mkEffect [] message).
Proof.
  rewrite handleSubmit_cases. unfold InputBarJsx.button_disabled. simpl.
  destruct (trim message) as [|c t], loading; simpl; split_and!; split;
    try done.
Qed.

Lemma run_effect_single (env : JsVal) (backend : Request -> Exchange)
    (toFixed1 : Z -> jsstring) (tem : JsVal -> string -> jsstring)
    (t after : jsstring) (w : World) :
  AppWiring.run_effect env backend toFixed1 tem (InputBarJsx.mkEffect [t] after) w
  = (Ok after, (AppJsx.dispatch_handleSend env backend toFixed1 tem t w).2).
Proof.
  unfold AppWiring.run_effect.
  cbn [InputBarJsx.sent InputBarJsx.message_after AppAsync.rounds].
  unfold mbind, M_bind, bind.
  destruct (dispatch_round_shape env backend toFixed1 tem t w)
    as (reply & Hrun & _). by rewrite Hrun.
Qed.


(** ** The answer of a failed round *)


(** ** The quality card beyond its contract *)

Section QualityCardFacts.

Import DataQualityReportJsx.

Lemma ToString_ToPrimitive (v : JsVal) : ToString (ToPrimitive v) = ToString v.
Proof. by destruct v. Qed.

Lemma js_add_string_l (s : jsstring) (v : JsVal) :
  js_add (JStr s) v = JStr (s ++ ToString v).
Proof. unfold js_add. simpl. by rewrite ToString_ToPrimitive. Qed.

Lemma counter_or_zero (report : JsVal) (k : string) :
  truthy report = true ->
  exists c, counter report k = Ok c
            /\ (c = JNum (Int 0) \/ truthy c = true).
Proof.
  intros H. rewrite (counter_truthy _ _ H). eexists. split; [done|].
  unfold js_or. destruct (truthy (get_opt report k)) eqn:Hc; [by right|by left].
Qed.



End QualityCardFacts.

(** ** The address of the backend *)

(** X19.  The query goes to the configured base address followed by
    "/query", with the address used exactly as configured; when the
    setting is absent or empty the address is that of the local
    backend. *)
Theorem query_url_fallback (message history : JsVal) :
  (forall (c : N) (s : jsstring),
     url (Api.query_request (JStr (c :: s)) message history)
     = (c :: s) ++ js "/query")
  /\ (forall env : JsVal, env = JUndefined \/ env = JStr [] \/ env = JNull ->
        url (Api.query_request env message history)
        = js "http://localhost:7860/query").
Proof.
  split.
  - done.
  - intros env [-> | [-> | ->]]; reflexivity.
Qed.

(** ** Instances of the properties above *)

Lemma handleSend_body_without_envelope_witness :
  dataQualityReport
    (ui (AppJsx.dispatch_handleSend JUndefined null_backend
           (fun _ => js "0.1") (fun _ _ => js "Cannot read properties of null")
           (js "Which deals are at risk?") (AppJsx.initial_world false 0)).2)
  = JNull.
Proof.
  exact (proj2 (proj2 (proj1
           (handleSend_body_without_envelope JUndefined null_backend
              (fun _ => js "0.1") (fun _ _ => js "Cannot read properties of null")
              (js "Which deals are at risk?") (AppJsx.initial_world false 0)
              (mkResponse JNull 200) eq_refl)
           (or_introl eq_refl)))).
Defined.

Lemma failed_round_renders_red_witness :
  exists rows : list ActionTraceJsx.Row,
    ActionTraceJsx.ActionTrace
      (actionTrace
         (ui (AppJsx.dispatch_handleSend JUndefined failing_backend
                (fun _ => js "0.2") (fun _ _ => [])
                (js "Which deals are at risk?")
                (AppJsx.initial_world false 0)).2))
    = Ok (ActionTraceJsx.Timeline rows)
    /\ length rows = 2%nat.
Proof.
  eexists. split.
  - exact (failed_round_renders_red JUndefined failing_backend
             (fun _ => js "0.2") (fun _ _ => []) (js "Which deals are at risk?")
             (AppJsx.initial_world false 0) _ eq_refl).
  - reflexivity.
Defined.

Lemma resolved_round_renders_envelope_witness :
  exists v,
    ActionTraceJsx.ActionTrace
      (actionTrace
         (ui (AppJsx.dispatch_handleSend JUndefined sample_backend
                (fun _ => js "1.5") (fun _ _ => [])
                (js "How is our pipeline looking?")
                (AppJsx.initial_world false 0)).2))
    = Ok v
    /\ ActionTraceJsx.text <$> ActionTraceJsx.rows_of v
       = [js "✅ Query understood"; js "Fetching Deals board"].
Proof.
  exact (proj1 (resolved_round_renders_envelope JUndefined sample_backend
                  (fun _ => js "1.5") (fun _ _ => [])
                  (js "How is our pipeline looking?")
                  (AppJsx.initial_world false 0)
                  (mkResponse (JObj sample_envelope) 200) sample_envelope
                  eq_refl eq_refl)
           [js "✅ Query understood"; js "Fetching Deals board"] eq_refl).
Defined.

Lemma ChatWindow_rotation_in_bounds_witness :
  Nat.iter 3 (ChatWindowJsx.on_interval []) 1 = 1.
Proof.
  refine (proj1 (proj2 (ChatWindow_rotation_in_bounds 1 false _))). lia.
Defined.




Example rounds_ex :
  (fun w => (length (messages (ui w)), length (requests w)))
    (AppAsync.rounds JUndefined sample_backend (fun _ => js "1.5")
       (fun _ _ => []) [js "How is our pipeline looking?"; js "And last quarter?"]
       (AppJsx.initial_world false 0)).2
  = (4%nat, 2%nat).
Proof. vm_compute. reflexivity. Qed.

Example chat_empty_ex :
  ChatWindowJsx.ChatWindow [] false 2
  = Ok (ChatWindowJsx.EmptyState
          [js "Give me a revenue summary"; js "Which work orders are stalling?";
           js "Break down deals by closure probability";
           js "What's our average deal size?"]).
Proof. reflexivity. Qed.
